(** * BrowserBookmarks: bookmark discovery and bounded search

    A shallow embedding of [BrowserBookmarks.py]: the Python [str]
    operations the extension relies on, decoded JSON values, the
    extension object with its mutable fields, and the methods
    [collect_bookmarks_paths], [find_bookmarks_paths], [find_rec],
    [contains_all_substrings], [get_items] and the preference listener.

    Scope of the model.  A Python [str] is represented by the bytes of
    its UTF-8 encoding, on which splitting at a space and the substring
    test agree with those of Python.  [str.lower] is a function of the
    runtime over all of Unicode and is taken as a parameter; the
    lower-casing of ASCII text stands in for it in the sample runs.
    Logging calls have no effect on the values computed and are left
    out. *)

From Stdlib Require Import String Ascii List Bool Arith Lia.
Import ListNotations.
Open Scope string_scope.
Open Scope list_scope.
Set Warnings "-register-all".

(** ** Python [str] operations *)

Module PyStr.

#[local] Open Scope string_scope.

(** Lower-casing of one ASCII character: 'A'..'Z' move to 'a'..'z'. *)
Definition ascii_lower_char (c : ascii) : ascii :=
  let n := nat_of_ascii c in
  if ((65 <=? n) && (n <=? 90))%nat then ascii_of_nat (n + 32) else c.

(** Lower-casing of ASCII text: what [s.lower()] is when every
    character of [s] is an ASCII character. *)
Fixpoint ascii_lower (s : string) : string :=
  match s with
  | EmptyString => EmptyString
  | String c rest => String (ascii_lower_char c) (ascii_lower rest)
  end.

(** [s.startswith(p)] *)
Fixpoint startswith (s p : string) {struct p} : bool :=
  match p, s with
  | EmptyString, _ => true
  | String _ _, EmptyString => false
  | String b p', String a s' => Ascii.eqb a b && startswith s' p'
  end.

(** [sub in text] *)
Fixpoint contains (sub text : string) : bool :=
  startswith text sub ||
  match text with
  | EmptyString => false
  | String _ rest => contains sub rest
  end.

(** [s.endswith(suffix)] *)
Fixpoint endswith (s suffix : string) : bool :=
  String.eqb s suffix ||
  match s with
  | EmptyString => false
  | String _ rest => endswith rest suffix
  end.

(** [s.split(sep)] for a separator of one character.  The result is
    never empty: [''.split(' ')] is [['']]. *)
Fixpoint split (sep : ascii) (s : string) : list string :=
  match s with
  | EmptyString => [EmptyString]
  | String c rest =>
      if Ascii.eqb c sep then EmptyString :: split sep rest
      else match split sep rest with
           | tok :: toks => String c tok :: toks
           | [] => [String c EmptyString]
           end
  end.

(** [sep.join(parts)] for a separator of one character. *)
Fixpoint join (sep : ascii) (parts : list string) : string :=
  match parts with
  | [] => EmptyString
  | [p] => p
  | p :: ps => p ++ String sep (join sep ps)
  end.

(** The character [c] does not occur in [s]. *)
Fixpoint free_of (c : ascii) (s : string) : bool :=
  match s with
  | EmptyString => true
  | String a rest => negb (Ascii.eqb a c) && free_of c rest
  end.

(** Every character of [s] is an ASCII character. *)
Fixpoint is_ascii (s : string) : bool :=
  match s with
  | EmptyString => true
  | String c rest => (nat_of_ascii c <? 128)%nat && is_ascii rest
  end.

Definition space : ascii := " "%char.
Definition newline : ascii := ascii_of_nat 10.
Definition colon : ascii := ":"%char.
Definition slash : ascii := "/"%char.

End PyStr.

(** ** Facts about the string operations *)

Module PyStrFacts.

Import PyStr.
#[local] Open Scope string_scope.

Lemma ascii_lower_char_idem (c : ascii) : ascii_lower_char (ascii_lower_char c) = ascii_lower_char c.
Proof.
  destruct c as [[] [] [] [] [] [] [] []]; reflexivity.
Qed.

Lemma ascii_lower_idem (s : string) : ascii_lower (ascii_lower s) = ascii_lower s.
Proof.
  induction s as [|c s IH]; simpl; [reflexivity|].
  now rewrite ascii_lower_char_idem, IH.
Qed.

Lemma ascii_lower_app (s t : string) : ascii_lower (s ++ t) = ascii_lower s ++ ascii_lower t.
Proof.
  induction s as [|c s IH]; simpl; [reflexivity|]. now rewrite IH.
Qed.

Lemma append_assoc (a b c : string) : (a ++ b) ++ c = a ++ (b ++ c).
Proof.
  induction a as [|x a IH]; simpl; [reflexivity|]. now rewrite IH.
Qed.

Lemma append_nil_r (a : string) : a ++ "" = a.
Proof.
  induction a as [|x a IH]; simpl; [reflexivity|]. now rewrite IH.
Qed.

Lemma startswith_spec (s p : string) :
  startswith s p = true <-> exists post, s = p ++ post.
Proof.
  revert s; induction p as [|b p IH]; intros s; simpl.
  - split; [intros _; now exists s | reflexivity].
  - destruct s as [|a s].
    + split; [discriminate | intros [post H]; discriminate].
    + rewrite andb_true_iff, Ascii.eqb_eq, IH. split.
      * intros [-> [post ->]]. now exists post.
      * intros [post H]. injection H as -> ->. split; [reflexivity | now exists post].
Qed.

Lemma contains_spec (sub text : string) :
  contains sub text = true <-> exists pre post, text = pre ++ sub ++ post.
Proof.
  induction text as [|a text IH]; simpl.
  - rewrite orb_false_r, startswith_spec. split.
    + intros [post H]. now exists "", post.
    + intros [pre [post H]]. destruct pre; [now exists post | discriminate].
  - rewrite orb_true_iff, IH, startswith_spec. split.
    + intros [[post H] | [pre [post H]]].
      * now exists "", post.
      * exists (String a pre), post. simpl. now rewrite H.
    + intros [pre [post H]]. destruct pre as [|x pre]; simpl in H.
      * left. now exists post.
      * right. injection H as -> ->. now exists pre, post.
Qed.

Lemma contains_empty (text : string) : contains "" text = true.
Proof. destruct text; reflexivity. Qed.

Lemma endswith_spec (s suffix : string) :
  endswith s suffix = true <-> exists pre, s = pre ++ suffix.
Proof.
  induction s as [|a s IH]; cbn [endswith].
  - rewrite orb_false_r, String.eqb_eq. split.
    + intros <-. now exists "".
    + intros [pre H]. destruct pre; [exact H | discriminate].
  - rewrite orb_true_iff, String.eqb_eq, IH. split.
    + intros [<- | [pre ->]]; [now exists "" | now exists (String a pre)].
    + intros [pre H]. destruct pre as [|x pre]; simpl in H.
      * now left.
      * right. injection H as -> ->. now exists pre.
Qed.

Lemma endswith_contains (s suffix : string) :
  endswith s suffix = true -> contains suffix s = true.
Proof.
  rewrite endswith_spec, contains_spec. intros [pre ->].
  exists pre, "". now rewrite append_nil_r.
Qed.

Lemma split_nonempty (sep : ascii) (s : string) : split sep s <> [].
Proof.
  destruct s as [|c s]; simpl; [discriminate|].
  destruct (Ascii.eqb c sep); [discriminate|].
  destruct (split sep s); discriminate.
Qed.

Lemma split_join (sep : ascii) (s : string) : join sep (split sep s) = s.
Proof.
  induction s as [|c s IH]; simpl; [reflexivity|].
  destruct (Ascii.eqb_spec c sep) as [->|Hne].
  - simpl. destruct (split sep s) eqn:E; [now apply split_nonempty in E|].
    now rewrite IH.
  - destruct (split sep s) as [|tok toks] eqn:E; [now apply split_nonempty in E|].
    simpl in *. destruct toks; simpl; now rewrite <- IH.
Qed.

Lemma split_free_of (sep : ascii) (s : string) :
  Forall (fun tok => free_of sep tok = true) (split sep s).
Proof.
  induction s as [|c s IH]; simpl.
  - now repeat constructor.
  - destruct (Ascii.eqb_spec c sep) as [->|Hne].
    + now constructor.
    + destruct (split sep s) as [|tok toks]; [|inversion IH; subst]; constructor; auto;
        simpl; apply andb_true_iff; (split; [|assumption || reflexivity]);
        apply negb_true_iff; now apply Ascii.eqb_neq.
Qed.

Lemma ascii_lower_char_space (c : ascii) :
  Ascii.eqb (ascii_lower_char c) space = Ascii.eqb c space.
Proof.
  destruct c as [[] [] [] [] [] [] [] []]; reflexivity.
Qed.

(** Lower-casing ASCII text and splitting it at spaces commute. *)
Lemma split_ascii_lower (q : string) :
  split space (ascii_lower q) = map ascii_lower (split space q).
Proof.
  induction q as [|c q IH]; [reflexivity|].
  cbn [ascii_lower split]. rewrite ascii_lower_char_space, IH.
  destruct (Ascii.eqb c space); [reflexivity|].
  destruct (split space q); reflexivity.
Qed.

End PyStrFacts.

(** ** Decoded JSON values, as [json.load] returns them *)

(** A [dict] lists its items in insertion order; a decoded dict has
    distinct keys, and lookup takes the first item with the key.  A
    number keeps its literal: the extension never computes with one. *)
Inductive json : Type :=
| JNull
| JBool (b : bool)
| JNumber (literal : string)
| JStr (s : string)
| JArr (items : list json)
| JObj (fields : list (string * json)).

(** Exceptions the extension's code can raise. *)
Inductive exn : Type :=
| KeyError (key : string)
| TypeError
| AttributeError
| OSError (path : string)
| JSONDecodeError (path : string).

Inductive outcome (A : Type) : Type :=
| Returned (a : A)
| Raised (e : exn).
Arguments Returned {A} a.
Arguments Raised {A} e.

(** Lookup in an association list, first item first. *)
Fixpoint assoc {V : Type} (key : string) (items : list (string * V)) : option V :=
  match items with
  | [] => None
  | (k, v) :: rest => if String.eqb k key then Some v else assoc key rest
  end.

(** [d[key] = value] on a dict: an existing key keeps its position. *)
Fixpoint dict_set {V : Type} (key : string) (value : V) (items : list (string * V))
  : list (string * V) :=
  match items with
  | [] => [(key, value)]
  | (k, v) :: rest =>
      if String.eqb k key then (k, value) :: rest
      else (k, v) :: dict_set key value rest
  end.

(** [v[key]] with a [str] key: only a dict can be subscripted by one. *)
Definition getitem (v : json) (key : string) : outcome json :=
  match v with
  | JObj fields =>
      match assoc key fields with
      | Some x => Returned x
      | None => Raised (KeyError key)
      end
  | _ => Raised TypeError
  end.

(** [v == s] for a [str] literal [s]. *)
Definition eq_str (v : json) (s : string) : bool :=
  match v with
  | JStr t => String.eqb t s
  | _ => false
  end.

(** The one-character strings a [for] loop over a [str] yields. *)
Fixpoint chars (s : string) : list string :=
  match s with
  | EmptyString => []
  | String c rest => String c EmptyString :: chars rest
  end.

(** [iter(v)]: what a [for] loop over [v] visits.  A list gives its
    elements, a dict its keys, a str its characters; nothing else among
    the decoded values is iterable. *)
Definition py_iter (v : json) : outcome (list json) :=
  match v with
  | JArr items => Returned items
  | JObj fields => Returned (map (fun kv => JStr (fst kv)) fields)
  | JStr s => Returned (map JStr (chars s))
  | _ => Raised TypeError
  end.

(** ** State and exceptions

    A computation reads and writes a state [S] and either returns or
    raises; the state written before an exception is kept, as the
    attributes of a Python object are. *)

Definition M (S A : Type) : Type := S -> outcome A * S.

Definition ret {S A} (a : A) : M S A := fun s => (Returned a, s).

Definition raise {S A} (e : exn) : M S A := fun s => (Raised e, s).

Definition bind {S A B} (m : M S A) (k : A -> M S B) : M S B :=
  fun s =>
    match m s with
    | (Returned a, s') => k a s'
    | (Raised e, s') => (Raised e, s')
    end.

Definition lift {S A} (o : outcome A) : M S A := fun s => (o, s).

Definition gets {S A} (f : S -> A) : M S A := fun s => (Returned (f s), s).

Definition modify {S} (f : S -> S) : M S unit := fun s => (Returned tt, f s).

Declare Scope py_scope.
Delimit Scope py_scope with py.
Notation "x <- m ;; k" := (bind m (fun x => k))
  (at level 61, m at next level, right associativity) : py_scope.
Notation "m ;; k" := (bind m (fun _ => k))
  (at level 61, right associativity) : py_scope.
Open Scope py_scope.

(** [for x in xs: body(x)] *)
Definition for_each {S A} (body : A -> M S unit) : list A -> M S unit :=
  fix loop (xs : list A) : M S unit :=
    match xs with
    | [] => ret tt
    | x :: rest => body x ;; loop rest
    end.

(** ** The extension object *)

Record BrowserBookmarks : Type := {
  preferences : list (string * string);
  bookmarks_paths : list (string * string);
  matches_len : nat
}.

Definition max_matches_len : nat := 10.

Definition set_matches_len (n : nat) (this : BrowserBookmarks) : BrowserBookmarks :=
  {| preferences := preferences this;
     bookmarks_paths := bookmarks_paths this;
     matches_len := n |}.

Definition set_preferences (p : list (string * string)) (this : BrowserBookmarks)
  : BrowserBookmarks :=
  {| preferences := p;
     bookmarks_paths := bookmarks_paths this;
     matches_len := matches_len this |}.

Definition set_bookmarks_paths (b : list (string * string)) (this : BrowserBookmarks)
  : BrowserBookmarks :=
  {| preferences := preferences this;
     bookmarks_paths := b;
     matches_len := matches_len this |}.

(** What a call of [find_rec] can read and write: the extension and the
    list object [matches] it was handed. *)
Record search : Type := {
  self : BrowserBookmarks;
  matches : list json
}.

(** [matches.append(entry)] *)
Definition append_match (entry : json) (st : search) : search :=
  {| self := self st; matches := matches st ++ [entry] |}.

(** [self.matches_len += 1] *)
Definition count_match (st : search) : search :=
  {| self := set_matches_len (matches_len (self st) + 1) (self st);
     matches := matches st |}.

(** ** The lower-casing of the host

    [lower s] stands for [s.lower()], on the UTF-8 representation of the
    strings: a function of the Python runtime, over all of Unicode, and a
    parameter of everything below.  What a result needs of it is stated
    where it is needed. *)

Section Lowercase.

Variable lower : string -> string.

(** [contains_all_substrings]: the loop returns [False] at the first
    sub-query missing from the text.  [text.lower()] is evaluated once
    per sub-query and exists on a [str] only. *)
Fixpoint contains_all_substrings (text : json) (substrings : list string)
  : outcome bool :=
  match substrings with
  | [] => Returned true
  | substring :: rest =>
      match text with
      | JStr t =>
          if negb (PyStr.contains (lower substring) (lower t))
          then Returned false
          else contains_all_substrings text rest
      | _ => Raised AttributeError
      end
  end.

(** [find_rec] on an entry that is a [str] (a key of a dict or a
    character of a str met where the children were expected): after the
    ceiling test, [entry["type"]] raises. *)
Definition find_rec_str (entry : string) (query : string) : M search unit :=
  len <- gets (fun st => matches_len (self st)) ;;
  if (max_matches_len <=? len)%nat then ret tt
  else raise TypeError.

(** The [for] loop of [find_rec] over the value [children], [visit]
    being the recursive call. *)
Definition for_children (visit : json -> M search unit) (query : string)
  (children : json) : M search unit :=
  match children with
  | JArr items => for_each visit items
  | JObj fields => for_each (fun kv => find_rec_str (fst kv) query) fields
  | JStr s => for_each (fun c => find_rec_str c query) (chars s)
  | _ => raise TypeError
  end.

(** [find_rec].  The value of [bookmark_entry["children"]] is reached
    through the fields of the entry, so that the recursive calls are on
    parts of the entry. *)
Fixpoint find_rec (bookmark_entry : json) (query : string) {struct bookmark_entry}
  : M search unit :=
  len <- gets (fun st => matches_len (self st)) ;;
  if (max_matches_len <=? len)%nat then ret tt
  else
    type <- lift (getitem bookmark_entry "type") ;;
    if eq_str type "folder" then
      match bookmark_entry with
      | JObj fields =>
          match assoc "children"
                  (map (fun kv =>
                          (fst kv,
                           for_children (fun child => find_rec child query)
                             query (snd kv)))
                     fields) with
          | Some loop => loop
          | None => raise (KeyError "children")
          end
      | _ => raise TypeError
      end
    else
      let sub_queries := PyStr.split PyStr.space query in
      bookmark_title <- lift (getitem bookmark_entry "name") ;;
      found <- lift (contains_all_substrings bookmark_title sub_queries) ;;
      if negb found then ret tt
      else
        modify (append_match bookmark_entry) ;;
        modify count_match.

(** ** The result items handed to the launcher *)

Inductive action : Type :=
| OpenUrlAction (url : string).

Record ExtensionResultItem : Type := {
  icon : option string;
  name : string;
  description : string;
  on_enter : action
}.

Definition support_browsers : list string :=
  ["BraveSoftware/Brave-Browser-Beta"].

Definition browser_imgs : list (string * string) :=
  [("BraveSoftware/Brave-Browser-Beta", "images/brave-beta.png")].

(** [for x in xs: acc = body(acc, x)], for a loop that builds a local
    value. *)
Definition fold_each {S A B} (body : B -> A -> M S B) : list A -> B -> M S B :=
  fix loop (xs : list A) (acc : B) : M S B :=
    match xs with
    | [] => ret acc
    | x :: rest => acc' <- body acc x ;; loop rest acc'
    end.

(** Runs a search that starts from a fresh list object [matches = []]
    and gives the list back. *)
Definition with_matches {A} (m : M search A) : M BrowserBookmarks (list json) :=
  fun this =>
    match m {| self := this; matches := [] |} with
    | (Returned _, st) => (Returned (matches st), self st)
    | (Raised e, st) => (Raised e, self st)
    end.

(** The three calls of [find_rec] inside the [with] block; each
    argument [data["roots"][...]] is evaluated just before its call. *)
Definition search_roots (data : json) (query : string) : M search unit :=
  roots <- lift (getitem data "roots") ;;
  bookmark_bar <- lift (getitem roots "bookmark_bar") ;;
  find_rec bookmark_bar query ;;
  roots <- lift (getitem data "roots") ;;
  synced <- lift (getitem roots "synced") ;;
  find_rec synced query ;;
  roots <- lift (getitem data "roots") ;;
  other <- lift (getitem roots "other") ;;
  find_rec other query.

Section Host.

(** What the machine supplies: [read_json path] is the outcome of
    [open(path)] followed by [json.load]; [repr v] is the text of
    [str(v)] for a decoded value that is not a [str]; [find_stdout
    command] is what the shell command [find <command>] writes to its
    standard output. *)
Variable read_json : string -> outcome json.
Variable repr : json -> string.
Variable find_stdout : string -> string.

(** [str(v)] *)
Definition py_str (v : json) : string :=
  match v with
  | JStr s => s
  | _ => repr v
  end.

(** The body of the loop over [matches] in [get_items].  Encoding to
    UTF-8 and decoding back gives the same text. *)
Definition make_item (browser : string) (bookmark : json)
  : outcome ExtensionResultItem :=
  match getitem bookmark "name" with
  | Raised e => Raised e
  | Returned n =>
      let bookmark_name := py_str n in
      match getitem bookmark "url" with
      | Raised e => Raised e
      | Returned u =>
          let bookmark_url := py_str u in
          Returned {| icon := assoc browser browser_imgs;
                      name := bookmark_name;
                      description := bookmark_url;
                      on_enter := OpenUrlAction bookmark_url |}
      end
  end.

(** The loop over [matches] in [get_items]: one item is appended per
    bookmark. *)
Definition add_items (browser : string) (items : list ExtensionResultItem)
  (found : list json) : M BrowserBookmarks (list ExtensionResultItem) :=
  fold_each
    (fun items bookmark =>
       item <- lift (make_item browser bookmark) ;;
       ret (items ++ [item]))
    found items.

(** The body of the loop over [self.bookmarks_paths] in [get_items]. *)
Definition search_source (query : string) (items : list ExtensionResultItem)
  (source : string * string) : M BrowserBookmarks (list ExtensionResultItem) :=
  let bookmarks_path := fst source in
  let browser := snd source in
  found <- with_matches
             (data <- lift (read_json bookmarks_path) ;;
              search_roots data query) ;;
  add_items browser items found.

(** [get_items] *)
Definition get_items (query : option string)
  : M BrowserBookmarks (list ExtensionResultItem) :=
  modify (set_matches_len 0) ;;
  let query := match query with None => "" | Some q => q end in
  paths <- gets bookmarks_paths ;;
  fold_each (search_source query) paths [].

(** *** Path Locator *)

(** The lines a line-oriented filter reads from a text: the pieces
    between newlines, without the empty piece after a final newline. *)
Definition lines (text : string) : list string :=
  let pieces := PyStr.split PyStr.newline text in
  if String.eqb (last pieces "") "" then removelast pieces else pieces.

Fixpoint unlines (ls : list string) : string :=
  match ls with
  | [] => ""
  | l :: rest => (l ++ String PyStr.newline (unlines rest))%string
  end.

(** [grep pattern] for a pattern without special characters: the input
    lines that contain it, each ended by a newline. *)
Definition grep (pattern text : string) : string :=
  unlines (filter (PyStr.contains pattern) (lines text)).

(** [os.popen("find %s | grep Bookmarks" % command).read()] *)
Definition popen_find_grep (command : string) : string :=
  grep "Bookmarks" (find_stdout command).

(** [collect_bookmarks_paths] *)
Definition collect_bookmarks_paths (dirs : list string) (browser : string)
  : list (string * string) :=
  let grep_results :=
    flat_map (fun command => PyStr.split PyStr.newline (popen_find_grep command))
      dirs in
  if (length grep_results =? 0)%nat then []
  else
    map (fun one_path => (one_path, browser))
      (filter (fun one_path => PyStr.endswith one_path "Bookmarks") grep_results).

(** [find_bookmarks_paths] *)
Definition find_bookmarks_paths : M BrowserBookmarks (list (string * string)) :=
  prefs <- gets preferences ;;
  additional_browser_paths <-
    lift (match assoc "additional_browser_paths" prefs with
          | Some v => Returned v
          | None => Raised (KeyError "additional_browser_paths")
          end) ;;
  let found_bookmarks :=
    flat_map
      (fun browser =>
         let potential_bookmark_paths :=
           [("$HOME/.config/" ++ browser)%string;
            ("$HOME/snap/" ++ browser ++ "/current/.config/" ++ browser)%string] in
         collect_bookmarks_paths potential_bookmark_paths browser)
      support_browsers in
  let found_bookmarks :=
    if String.eqb additional_browser_paths "" then found_bookmarks
    else
      let custom_paths := PyStr.split PyStr.colon additional_browser_paths in
      found_bookmarks ++ collect_bookmarks_paths custom_paths "custom_path" in
  ret found_bookmarks.

(** *** Preference listener *)

Inductive event : Type :=
| PreferencesUpdateEvent (id new_value : string)
| PreferencesEvent (prefs : list (string * string)).

(** [extension.bookmarks_paths = extension.find_bookmarks_paths()] *)
Definition refresh_bookmarks_paths : M BrowserBookmarks unit :=
  found <- find_bookmarks_paths ;;
  modify (set_bookmarks_paths found).

(** [PreferencesEventListener.on_event] *)
Definition on_event (ev : event) : M BrowserBookmarks unit :=
  match ev with
  | PreferencesUpdateEvent id new_value =>
      if String.eqb id "keyword" then ret tt
      else
        modify (fun ext => set_preferences (dict_set id new_value (preferences ext)) ext) ;;
        refresh_bookmarks_paths
  | PreferencesEvent prefs =>
      modify (set_preferences prefs) ;;
      refresh_bookmarks_paths
  end.

(** *** Keyword listener *)

Inductive result_action : Type :=
| RenderResultListAction (items : list ExtensionResultItem).

(** [KeywordQueryEventListener.on_event]; [argument] is what
    [event.get_argument()] gives, [None] when nothing was typed. *)
Definition keyword_query_on_event (argument : option string)
  : M BrowserBookmarks result_action :=
  items <- get_items argument ;;
  ret (RenderResultListAction items).

End Host.

(** ** Bookmark trees

    The vocabulary in which the properties of the search are stated: the
    shape of a bookmark file as the browser writes it, and the leaves of
    a tree in depth-first order. *)

(** The entry carries the discriminator ["folder"]. *)
Definition is_folder (entry : json) : bool :=
  match getitem entry "type" with
  | Returned type => eq_str type "folder"
  | Raised _ => false
  end.

(** Every sub-query of [query] occurs in [title], letter case apart. *)
Definition title_matches (query title : string) : bool :=
  forallb (fun sub => PyStr.contains (lower sub) (lower title))
    (PyStr.split PyStr.space query).

(** The entry is a leaf whose name satisfies the query. *)
Definition entry_matches (query : string) (entry : json) : bool :=
  negb (is_folder entry) &&
  match getitem entry "name" with
  | Returned (JStr title) => title_matches query title
  | _ => false
  end.

(** A tree as the data model has it: a folder holds a list of trees, a
    leaf holds a name that is text and a url. *)
Fixpoint well_formed (node : json) : bool :=
  match node with
  | JObj fields =>
      match assoc "type" fields with
      | Some type =>
          if eq_str type "folder" then
            match assoc "children"
                    (map (fun kv =>
                            (fst kv,
                             match snd kv with
                             | JArr items => forallb well_formed items
                             | _ => false
                             end))
                       fields) with
            | Some ok => ok
            | None => false
            end
          else
            match assoc "name" fields, assoc "url" fields with
            | Some (JStr _), Some _ => true
            | _, _ => false
            end
      | None => false
      end
  | _ => false
  end.

(** The leaves of a tree, depth first, children in stored order. *)
Fixpoint leaves (node : json) : list json :=
  match node with
  | JObj fields =>
      match assoc "type" fields with
      | Some type =>
          if eq_str type "folder" then
            match assoc "children"
                    (map (fun kv =>
                            (fst kv,
                             match snd kv with
                             | JArr items => flat_map leaves items
                             | _ => []
                             end))
                       fields) with
            | Some found => found
            | None => []
            end
          else [node]
      | None => []
      end
  | _ => []
  end.

(** A bookmark file with its three root sections, each a tree. *)
Definition well_formed_file (data : json) : bool :=
  match getitem data "roots" with
  | Returned roots =>
      match getitem roots "bookmark_bar", getitem roots "synced",
            getitem roots "other" with
      | Returned bar, Returned synced, Returned other =>
          well_formed bar && well_formed synced && well_formed other
      | _, _, _ => false
      end
  | Raised _ => false
  end.

(** The leaves of a file: bar, then synced, then other. *)
Definition file_leaves (data : json) : list json :=
  match getitem data "roots" with
  | Returned roots =>
      match getitem roots "bookmark_bar", getitem roots "synced",
            getitem roots "other" with
      | Returned bar, Returned synced, Returned other =>
          leaves bar ++ leaves synced ++ leaves other
      | _, _, _ => []
      end
  | Raised _ => []
  end.

(** The search state after the entries [found] were offered in order:
    the first ones are taken while there is room under the ceiling. *)
Definition take_matches (found : list json) (st : search) : search :=
  let taken := firstn (max_matches_len - matches_len (self st)) found in
  {| self := set_matches_len (matches_len (self st) + length taken) (self st);
     matches := matches st ++ taken |}.

(** The name of a filesystem entry: the text after the last slash. *)
Definition basename (path : string) : string :=
  last (PyStr.split PyStr.slash path) "".

Section Results.

Variable read_json : string -> outcome json.
Variable repr : json -> string.

(** The field [key] of a bookmark that has it. *)
Definition field (bookmark : json) (key : string) : json :=
  match getitem bookmark key with
  | Returned v => v
  | Raised _ => JNull
  end.

(** The item shown for a bookmark found in a file of [browser]. *)
Definition item_of (browser : string) (bookmark : json) : ExtensionResultItem :=
  {| icon := assoc browser browser_imgs;
     name := py_str repr (field bookmark "name");
     description := py_str repr (field bookmark "url");
     on_enter := OpenUrlAction (py_str repr (field bookmark "url")) |}.

(** The file of a source loads and is a bookmark file. *)
Definition source_well_formed (source : string * string) : bool :=
  match read_json (fst source) with
  | Returned data => well_formed_file data
  | Raised _ => false
  end.

(** The items for all the leaves of a source that satisfy the query, in
    the order of the file. *)
Definition source_items (query : string) (source : string * string)
  : list ExtensionResultItem :=
  match read_json (fst source) with
  | Returned data =>
      map (item_of (snd source)) (filter (entry_matches query) (file_leaves data))
  | Raised _ => []
  end.

(** The items for all the leaves of a source. *)
Definition source_leaf_items (source : string * string) : list ExtensionResultItem :=
  match read_json (fst source) with
  | Returned data => map (item_of (snd source)) (file_leaves data)
  | Raised _ => []
  end.

End Results.

(** What one or more calls of [find_rec] may do to the search state:
    entries that satisfy the query are appended, the counter grows by
    their number and stays under the ceiling if it was, and nothing else
    of the extension changes. *)
Definition grows (query : string) (st st' : search) : Prop :=
  exists added,
    matches st' = matches st ++ added /\
    matches_len (self st') = matches_len (self st) + length added /\
    preferences (self st') = preferences (self st) /\
    bookmarks_paths (self st') = bookmarks_paths (self st) /\
    (matches_len (self st) <= max_matches_len ->
     matches_len (self st') <= max_matches_len) /\
    Forall (fun m => entry_matches query m = true) added.

(** [b] is [e] or is reached from [e] through lists of children. *)
Inductive descends : json -> json -> Prop :=
| descends_self (e : json) : descends e e
| descends_child (e : json) (items : list json) (c b : json) :
    getitem e "children" = Returned (JArr items) ->
    In c items ->
    descends c b ->
    descends e b.

(** [b] is an entry of one of the three root sections of [data]. *)
Definition in_file (data b : json) : Prop :=
  exists roots key root,
    getitem data "roots" = Returned roots /\
    In key ["bookmark_bar"; "synced"; "other"] /\
    getitem roots key = Returned root /\
    descends root b.

(** The search state was extended by entries that satisfy [P]. *)
Definition appends (P : json -> Prop) (st st' : search) : Prop :=
  exists added, matches st' = matches st ++ added /\ Forall P added.

(** Only the counter of the extension may differ. *)
Definition same_but_counter (this this' : BrowserBookmarks) : Prop :=
  exists n, this' = set_matches_len n this.

Section Provenance.

Variable read_json : string -> outcome json.
Variable repr : json -> string.

(** The item was made, with the label of [source], from an entry of the
    file of [source] that satisfies the query. *)
Definition found_in (query : string) (source : string * string)
  (item : ExtensionResultItem) : Prop :=
  exists data b,
    read_json (fst source) = Returned data /\
    in_file data b /\
    entry_matches query b = true /\
    make_item repr (snd source) b = Returned item.

End Provenance.

(** ** Sample inputs *)

Definition bookmark (title url : string) : json :=
  JObj [("name", JStr title); ("type", JStr "url"); ("url", JStr url)].

Definition folder (title : string) (children : list json) : json :=
  JObj [("children", JArr children); ("name", JStr title); ("type", JStr "folder")].

Definition bookmark_file (bar synced other : json) : json :=
  JObj [("roots", JObj [("bookmark_bar", bar); ("other", other); ("synced", synced)])].

Definition site_a : json := bookmark "Site A" "https://a.example".
Definition site_b : json := bookmark "Site B" "https://b.example".
Definition site_c : json := bookmark "Site C" "https://c.example".

(** bar = [A, B], synced = [], other = [C] *)
Definition sample_abc : json :=
  bookmark_file (folder "Bookmarks bar" [site_a; site_b])
    (folder "Mobile bookmarks" [])
    (folder "Other bookmarks" [site_c]).

(** Seven leaves, some of them in a nested folder. *)
Definition sample_seven : json :=
  bookmark_file
    (folder "Bookmarks bar"
       [bookmark "News 1" "https://n1.example";
        folder "Work" [bookmark "News 2" "https://n2.example";
                       bookmark "News 3" "https://n3.example"];
        bookmark "News 4" "https://n4.example"])
    (folder "Mobile bookmarks" [bookmark "News 5" "https://n5.example"])
    (folder "Other bookmarks" [bookmark "News 6" "https://n6.example";
                               bookmark "News 7" "https://n7.example"]).

Definition sample_read (path : string) : outcome json :=
  if String.eqb path "/abc/Bookmarks" then Returned sample_abc
  else if String.eqb path "/seven/Bookmarks" then Returned sample_seven
  else Raised (OSError path).

Definition sample_repr (v : json) : string := "".

Definition sample_find (command : string) : string :=
  if String.eqb command "/tmp/x"
  then unlines ["/tmp/x"; "/tmp/x/MyBookmarks"; "/tmp/x/Bookmarks"; "/tmp/x/Bookmarks.bak"]
  else "".

Definition sample_extension (sources : list (string * string)) : BrowserBookmarks :=
  {| preferences := [("keyword", "bm"); ("additional_browser_paths", "")];
     bookmarks_paths := sources;
     matches_len := 0 |}.

Definition sample_search : search :=
  {| self := sample_extension []; matches := [] |}.

Definition item_a : ExtensionResultItem :=
  {| icon := None; name := "Site A"; description := "https://a.example";
     on_enter := OpenUrlAction "https://a.example" |}.
Definition item_b : ExtensionResultItem :=
  {| icon := None; name := "Site B"; description := "https://b.example";
     on_enter := OpenUrlAction "https://b.example" |}.
Definition item_c : ExtensionResultItem :=
  {| icon := None; name := "Site C"; description := "https://c.example";
     on_enter := OpenUrlAction "https://c.example" |}.

(** Ten bookmarks that satisfy the query news. *)
Definition sample_ten : list json :=
  map (fun n => bookmark ("News " ++ n) "https://news.example")
    ["0"; "1"; "2"; "3"; "4"; "5"; "6"; "7"; "8"; "9"].

(** A folder whose last children are not bookmarks at all. *)
Definition sample_crowded_fields : list (string * json) :=
  [("children", JArr (sample_ten ++ [JNull; JStr "stray"]));
   ("name", JStr "Bookmarks bar");
   ("type", JStr "folder")].

(** As [sample_read], with a JSON file that is not a bookmark file. *)
Definition sample_read_odd (path : string) : outcome json :=
  if String.eqb path "/odd/Bookmarks" then Returned (JObj [("version", JNumber "1")])
  else sample_read path.

(** * Properties *)


(** ** Induction over decoded values *)

Lemma json_nested_ind (P : json -> Prop)
  (Hnull : P JNull)
  (Hbool : forall b, P (JBool b))
  (Hnumber : forall literal, P (JNumber literal))
  (Hstr : forall s, P (JStr s))
  (Harr : forall items, Forall P items -> P (JArr items))
  (Hobj : forall fields, Forall (fun kv => P (snd kv)) fields -> P (JObj fields))
  : forall j, P j.
Proof.
  exact (fix go (j : json) : P j :=
    match j with
    | JNull => Hnull
    | JBool b => Hbool b
    | JNumber literal => Hnumber literal
    | JStr s => Hstr s
    | JArr items =>
        Harr items
          ((fix all (l : list json) : Forall P l :=
              match l with
              | [] => Forall_nil P
              | x :: rest => Forall_cons x (go x) (all rest)
              end) items)
    | JObj fields =>
        Hobj fields
          ((fix all (l : list (string * json)) : Forall (fun kv => P (snd kv)) l :=
              match l with
              | [] => Forall_nil _
              | (k, v) :: rest =>
                  @Forall_cons _ (fun kv => P (snd kv)) (k, v) rest (go v) (all rest)
              end) fields)
    end).
Qed.

Lemma assoc_map {V W : Type} (f : V -> W) (key : string) (items : list (string * V)) :
  assoc key (map (fun kv => (fst kv, f (snd kv))) items) = option_map f (assoc key items).
Proof.
  induction items as [|[k v] items IH]; simpl; [reflexivity|].
  destruct (String.eqb k key); [reflexivity | exact IH].
Qed.

Lemma assoc_In {V : Type} (key : string) (items : list (string * V)) (v : V) :
  assoc key items = Some v -> In (key, v) items.
Proof.
  induction items as [|[k w] items IH]; simpl; [discriminate|].
  destruct (String.eqb_spec k key) as [->|Hne].
  - intros [= ->]. now left.
  - intros H. right. now apply IH.
Qed.

(** ** [find_rec] as the source reads *)

(** The recursive call on a [str] entry. *)
Lemma find_rec_JStr (s query : string) (st : search) :
  find_rec (JStr s) query st = find_rec_str s query st.
Proof. reflexivity. Qed.

Lemma for_each_JStr {A : Type} (f : A -> string) (query : string) (xs : list A)
  (st : search) :
  for_each (fun x => find_rec_str (f x) query) xs st =
  for_each (fun child => find_rec child query) (map (fun x => JStr (f x)) xs) st.
Proof.
  revert st. induction xs as [|x xs IH]; intros st; [reflexivity|].
  cbn [for_each map]. unfold bind at 1 2.
  rewrite find_rec_JStr.
  destruct (find_rec_str (f x) query st) as [[[]|e] st']; [apply IH | reflexivity].
Qed.

(** The loop over the children visits what [iter] yields, calling
    [find_rec] on each. *)
Lemma for_children_iter (query : string) (children : json) (st : search) :
  for_children (fun child => find_rec child query) query children st =
  (items <- lift (py_iter children) ;;
   for_each (fun child => find_rec child query) items) st.
Proof.
  destruct children as [| | | s | items | fields]; try reflexivity.
  - apply (for_each_JStr (fun c => c)).
  - apply (for_each_JStr fst).
Qed.

(** [find_rec], statement by statement. *)
Lemma find_rec_unfold (bookmark_entry : json) (query : string) (st : search) :
  find_rec bookmark_entry query st =
  (len <- gets (fun st => matches_len (self st)) ;;
   if (max_matches_len <=? len)%nat then ret tt
   else
     type <- lift (getitem bookmark_entry "type") ;;
     if eq_str type "folder" then
       children <- lift (getitem bookmark_entry "children") ;;
       items <- lift (py_iter children) ;;
       for_each (fun child => find_rec child query) items
     else
       let sub_queries := PyStr.split PyStr.space query in
       bookmark_title <- lift (getitem bookmark_entry "name") ;;
       found <- lift (contains_all_substrings bookmark_title sub_queries) ;;
       if negb found then ret tt
       else
         modify (append_match bookmark_entry) ;;
         modify count_match) st.
Proof.
  destruct bookmark_entry as [| | | s | items | fields]; try reflexivity.
  cbv [bind gets lift]. cbn [find_rec getitem].
  cbv [bind gets lift].
  destruct (max_matches_len <=? matches_len (self st))%nat; [reflexivity|].
  destruct (assoc "type" fields) as [type|]; [|reflexivity].
  destruct (eq_str type "folder"); [|reflexivity].
  rewrite assoc_map.
  destruct (assoc "children" fields) as [children|]; [|reflexivity].
  cbn [option_map]. rewrite for_children_iter. reflexivity.
Qed.

(** To prove a property of every value, one may assume it of the
    elements of every list held in a field of the value. *)
Lemma json_tree_ind (P : json -> Prop)
  (step : forall j,
      (forall fields key items child,
          j = JObj fields -> In (key, JArr items) fields -> In child items ->
          P child) ->
      P j) :
  forall j, P j.
Proof.
  assert (H : forall j,
             P j /\ (forall items child, j = JArr items -> In child items -> P child)).
  { induction j as [| b | literal | s | items IH | fields IH] using json_nested_ind;
      (split; [apply step; try (intros ? ? ? ? ?; discriminate)
              | try (intros ? ? ?; discriminate)]).
    - intros items' child Heq Hin. injection Heq as <-.
      rewrite Forall_forall in IH. now apply IH.
    - intros fields' key items child Heq Hin Hchild. injection Heq as <-.
      rewrite Forall_forall in IH.
      destruct (IH _ Hin) as [_ Hsub]. now apply (Hsub items). }
  intros j. apply H.
Qed.

(** ** The matching test *)

Lemma contains_all_substrings_JStr (title : string) (substrings : list string) :
  contains_all_substrings (JStr title) substrings =
  Returned (forallb (fun sub => PyStr.contains (lower sub) (lower title))
              substrings).
Proof.
  induction substrings as [|sub rest IH]; simpl; [reflexivity|].
  destruct (PyStr.contains (lower sub) (lower title)); simpl;
    [exact IH | reflexivity].
Qed.

Lemma contains_all_substrings_returns (text : json) (substrings : list string) (b : bool) :
  substrings <> [] ->
  contains_all_substrings text substrings = Returned b ->
  exists title, text = JStr title.
Proof.
  destruct substrings as [|sub rest]; [congruence|]. intros _.
  destruct text; simpl; try discriminate. intros _. now eexists.
Qed.

(** ** What [find_rec] does on any input *)

Lemma grows_refl (query : string) (st : search) : grows query st st.
Proof.
  exists []. rewrite app_nil_r. simpl. repeat split; auto.
Qed.

Lemma grows_trans (query : string) (st1 st2 st3 : search) :
  grows query st1 st2 -> grows query st2 st3 -> grows query st1 st3.
Proof.
  intros (a1 & M1 & L1 & P1 & B1 & C1 & F1) (a2 & M2 & L2 & P2 & B2 & C2 & F2).
  exists (a1 ++ a2). rewrite length_app. repeat split.
  - now rewrite M2, M1, app_assoc.
  - lia.
  - congruence.
  - congruence.
  - intros H. apply C2. now apply C1.
  - apply Forall_app. now split.
Qed.

Lemma grows_bind {A B : Type} (query : string) (m : M search A) (k : A -> M search B) :
  (forall st, grows query st (snd (m st))) ->
  (forall a st, grows query st (snd (k a st))) ->
  forall st, grows query st (snd (bind m k st)).
Proof.
  intros Hm Hk st. unfold bind. specialize (Hm st).
  destruct (m st) as [[a|e] st']; simpl in *; [|exact Hm].
  eapply grows_trans; [exact Hm | apply Hk].
Qed.

Lemma grows_lift {A : Type} (query : string) (o : outcome A) (st : search) :
  grows query st (snd (lift o st)).
Proof. apply grows_refl. Qed.

Lemma grows_for_each {A : Type} (query : string) (body : A -> M search unit)
  (xs : list A) :
  (forall x, In x xs -> forall st, grows query st (snd (body x st))) ->
  forall st, grows query st (snd (for_each body xs st)).
Proof.
  induction xs as [|x xs IH]; intros Hbody st.
  - apply grows_refl.
  - cbn [for_each]. apply grows_bind.
    + apply Hbody. now left.
    + intros _. apply IH. intros y Hy. apply Hbody. now right.
Qed.

Lemma grows_find_rec_str (query s : string) (st : search) :
  grows query st (snd (find_rec_str s query st)).
Proof.
  unfold find_rec_str, bind, gets.
  destruct (max_matches_len <=? matches_len (self st))%nat; apply grows_refl.
Qed.

(** The step of [find_rec] that records a match. *)
Lemma grows_record (query : string) (entry : json) (st : search) :
  matches_len (self st) < max_matches_len ->
  entry_matches query entry = true ->
  grows query st (count_match (append_match entry st)).
Proof.
  intros Hroom Hmatch. exists [entry]. simpl.
  repeat split; auto. lia.
Qed.

Lemma find_rec_grows (query : string) (bookmark_entry : json) :
  forall st, grows query st (snd (find_rec bookmark_entry query st)).
Proof.
  induction bookmark_entry as [entry IH] using json_tree_ind. intros st.
  rewrite find_rec_unfold. unfold bind at 1, gets.
  destruct (Nat.leb_spec max_matches_len (matches_len (self st))) as [Hfull|Hroom];
    [apply grows_refl|].
  unfold bind at 1, lift at 1.
  destruct (getitem entry "type") as [type|e] eqn:Htype; [|apply grows_refl].
  destruct (eq_str type "folder") eqn:Hfolder.
  - unfold bind at 1, lift at 1.
    destruct (getitem entry "children") as [children|e] eqn:Hchildren; [|apply grows_refl].
    unfold bind at 1, lift at 1.
    destruct (py_iter children) as [items|e] eqn:Hiter; [|apply grows_refl].
    apply grows_for_each. intros child Hchild.
    destruct children as [| | | s | items' | fields']; try discriminate.
    + injection Hiter as <-. apply in_map_iff in Hchild as (c & <- & _).
      intros st'. rewrite find_rec_JStr. apply grows_find_rec_str.
    + injection Hiter as <-.
      destruct entry as [| | | | | fields]; try discriminate.
      apply (IH fields "children" items' child); [reflexivity | | exact Hchild].
      apply assoc_In. simpl in Hchildren.
      destruct (assoc "children" fields); [now injection Hchildren as -> | discriminate].
    + injection Hiter as <-. apply in_map_iff in Hchild as (kv & <- & _).
      intros st'. rewrite find_rec_JStr. apply grows_find_rec_str.
  - cbv zeta. unfold bind at 1, lift at 1.
    destruct (getitem entry "name") as [title|e] eqn:Hname; [|apply grows_refl].
    unfold bind at 1, lift at 1.
    destruct (contains_all_substrings title (PyStr.split PyStr.space query))
      as [found|e] eqn:Hfound; [|apply grows_refl].
    destruct found; [|apply grows_refl].
    cbn [negb]. unfold bind, modify. cbn [snd].
    apply grows_record; [exact Hroom|].
    unfold entry_matches, is_folder. rewrite Htype, Hfolder, Hname. cbn [negb andb].
    destruct (contains_all_substrings_returns _ _ _ (PyStrFacts.split_nonempty _ _) Hfound)
      as [t ->].
    rewrite contains_all_substrings_JStr in Hfound. now injection Hfound.
Qed.

(** ** What [find_rec] does on a tree *)

Lemma well_formed_JObj (fields : list (string * json)) :
  well_formed (JObj fields) =
  match assoc "type" fields with
  | Some type =>
      if eq_str type "folder" then
        match assoc "children" fields with
        | Some (JArr items) => forallb well_formed items
        | _ => false
        end
      else
        match assoc "name" fields, assoc "url" fields with
        | Some (JStr _), Some _ => true
        | _, _ => false
        end
  | None => false
  end.
Proof.
  cbn [well_formed]. destruct (assoc "type" fields) as [type|]; [|reflexivity].
  destruct (eq_str type "folder"); [|reflexivity].
  rewrite (assoc_map (fun v => match v with
                               | JArr items => forallb well_formed items
                               | _ => false
                               end)).
  destruct (assoc "children" fields) as [[]|]; reflexivity.
Qed.

Lemma leaves_JObj (fields : list (string * json)) :
  leaves (JObj fields) =
  match assoc "type" fields with
  | Some type =>
      if eq_str type "folder" then
        match assoc "children" fields with
        | Some (JArr items) => flat_map leaves items
        | _ => []
        end
      else [JObj fields]
  | None => []
  end.
Proof.
  cbn [leaves]. destruct (assoc "type" fields) as [type|]; [|reflexivity].
  destruct (eq_str type "folder"); [|reflexivity].
  rewrite (assoc_map (fun v => match v with
                               | JArr items => flat_map leaves items
                               | _ => []
                               end)).
  destruct (assoc "children" fields) as [[]|]; reflexivity.
Qed.

Lemma search_eta (st : search) :
  {| self := set_matches_len (matches_len (self st)) (self st);
     matches := matches st |} = st.
Proof. destruct st as [[p b n] ms]. reflexivity. Qed.

Lemma take_matches_nil (st : search) : take_matches [] st = st.
Proof.
  unfold take_matches. rewrite firstn_nil, app_nil_r. simpl.
  rewrite Nat.add_0_r. apply search_eta.
Qed.

Lemma take_matches_full (found : list json) (st : search) :
  max_matches_len <= matches_len (self st) -> take_matches found st = st.
Proof.
  intros H. unfold take_matches.
  replace (max_matches_len - matches_len (self st)) with 0 by lia.
  cbn [firstn length]. rewrite app_nil_r, Nat.add_0_r. apply search_eta.
Qed.

Lemma take_matches_one (entry : json) (st : search) :
  matches_len (self st) < max_matches_len ->
  take_matches [entry] st = count_match (append_match entry st).
Proof.
  intros H. unfold take_matches.
  destruct (max_matches_len - matches_len (self st)) as [|n] eqn:E; [lia|].
  simpl. rewrite firstn_nil. reflexivity.
Qed.

Lemma take_matches_app (l1 l2 : list json) (st : search) :
  take_matches l2 (take_matches l1 st) = take_matches (l1 ++ l2) st.
Proof.
  unfold take_matches. cbn [self matches set_matches_len matches_len
                             preferences bookmarks_paths].
  rewrite firstn_app, length_app, <- app_assoc, Nat.add_assoc.
  rewrite length_firstn.
  replace (max_matches_len -
           (matches_len (self st) +
            Nat.min (max_matches_len - matches_len (self st)) (length l1)))
    with (max_matches_len - matches_len (self st) - length l1) by lia.
  reflexivity.
Qed.

Lemma filter_flat_map {A B : Type} (p : B -> bool) (f : A -> list B) (xs : list A) :
  filter p (flat_map f xs) = flat_map (fun x => filter p (f x)) xs.
Proof.
  induction xs as [|x xs IH]; simpl; [reflexivity|].
  now rewrite filter_app, IH.
Qed.

Lemma for_each_take (body : json -> M search unit) (found : json -> list json)
  (xs : list json) :
  (forall x, In x xs -> forall st, body x st = (Returned tt, take_matches (found x) st)) ->
  forall st, for_each body xs st = (Returned tt, take_matches (flat_map found xs) st).
Proof.
  induction xs as [|x xs IH]; intros Hbody st.
  - cbn [for_each flat_map]. now rewrite take_matches_nil.
  - cbn [for_each flat_map]. unfold bind.
    rewrite (Hbody x (or_introl eq_refl)).
    rewrite IH by (intros y Hy; apply Hbody; now right).
    now rewrite take_matches_app.
Qed.

(** On a tree, [find_rec] returns, and has taken the leaves that satisfy
    the query, in depth-first order, while there was room. *)
Lemma find_rec_well_formed (query : string) (node : json) :
  well_formed node = true ->
  forall st,
    find_rec node query st =
    (Returned tt, take_matches (filter (entry_matches query) (leaves node)) st).
Proof.
  induction node as [node IH] using json_tree_ind. intros Hwf st.
  destruct node as [| | | | | fields]; try discriminate.
  rewrite well_formed_JObj in Hwf. rewrite leaves_JObj.
  rewrite find_rec_unfold. unfold bind at 1, gets.
  destruct (Nat.leb_spec max_matches_len (matches_len (self st))) as [Hfull|Hroom];
    [now rewrite take_matches_full|].
  unfold bind at 1, lift at 1. cbn [getitem].
  destruct (assoc "type" fields) as [type|] eqn:Htype; [|discriminate].
  destruct (eq_str type "folder") eqn:Hfolder.
  - unfold bind at 1, lift at 1.
    destruct (assoc "children" fields) as [[| | | | items |]|] eqn:Hchildren;
      try discriminate.
    unfold bind at 1, lift at 1. cbn [py_iter].
    rewrite filter_flat_map. apply for_each_take.
    intros child Hchild. apply (IH fields "children" items child).
    + reflexivity.
    + now apply assoc_In.
    + exact Hchild.
    + rewrite forallb_forall in Hwf. now apply Hwf.
  - cbv zeta. unfold bind at 1, lift at 1.
    destruct (assoc "name" fields) as [[| | | title | |]|] eqn:Hname; try discriminate.
    unfold bind at 1, lift at 1. rewrite contains_all_substrings_JStr.
    cbn [filter]. unfold entry_matches at 1, is_folder. cbn [getitem].
    rewrite Htype, Hfolder, Hname. cbn [negb andb]. fold (title_matches query title).
    destruct (title_matches query title); cbn [negb].
    + unfold bind, modify. now rewrite take_matches_one.
    + now rewrite take_matches_nil.
Qed.

(** ** Lists *)

Lemma flat_map_ext_in {A B : Type} (f g : A -> list B) (xs : list A) :
  (forall x, In x xs -> f x = g x) -> flat_map f xs = flat_map g xs.
Proof.
  induction xs as [|x xs IH]; intros H; [reflexivity|].
  cbn [flat_map]. rewrite (H x (or_introl eq_refl)), IH; [reflexivity|].
  intros y Hy. apply H. now right.
Qed.

Lemma forallb_map_ext {A B : Type} (p : B -> bool) (q : A -> bool) (f : A -> B)
  (xs : list A) :
  (forall x, p (f x) = q x) -> forallb p (map f xs) = forallb q xs.
Proof.
  intros H. induction xs as [|x xs IH]; [reflexivity|].
  cbn [map forallb]. now rewrite H, IH.
Qed.

(** ** Loops *)

Lemma fold_each_invariant {S A B : Type} (I : B -> S -> Prop) (body : B -> A -> M S B) :
  (forall acc x s acc' s', I acc s -> body acc x s = (Returned acc', s') -> I acc' s') ->
  forall xs acc s acc' s',
    I acc s -> fold_each body xs acc s = (Returned acc', s') -> I acc' s'.
Proof.
  intros Hbody. induction xs as [|x xs IH]; intros acc s acc' s' HI Hrun.
  - cbn in Hrun. now injection Hrun as <- <-.
  - cbn [fold_each] in Hrun. unfold bind in Hrun.
    destruct (body acc x s) as [[acc1|e] s1] eqn:Hstep; [|discriminate].
    eapply IH; [|exact Hrun]. eapply Hbody; eassumption.
Qed.

Lemma fold_each_app {S A B : Type} (body : B -> A -> M S B) (xs ys : list A) :
  forall acc s,
    fold_each body (xs ++ ys) acc s =
    match fold_each body xs acc s with
    | (Returned acc', s') => fold_each body ys acc' s'
    | (Raised e, s') => (Raised e, s')
    end.
Proof.
  induction xs as [|x xs IH]; intros acc s; [reflexivity|].
  cbn [app fold_each]. unfold bind.
  destruct (body acc x s) as [[acc1|e] s1]; [apply IH | reflexivity].
Qed.

Lemma fold_each_raises {S A B : Type} (body : B -> A -> M S B) (x : A) (xs : list A) :
  In x xs ->
  (forall acc s, exists e, fst (body acc x s) = Raised e) ->
  forall acc s, exists e, fst (fold_each body xs acc s) = Raised e.
Proof.
  intros Hin Hraise. induction xs as [|y xs IH]; [contradiction|].
  intros acc s. cbn [fold_each]. unfold bind.
  destruct (body acc y s) as [[acc1|e] s1] eqn:Hstep.
  - destruct Hin as [->|Hin].
    + destruct (Hraise acc s) as [e He]. rewrite Hstep in He. discriminate.
    + now apply IH.
  - now exists e.
Qed.

(** ** [get_items] on any input *)

Section GetItems.

Variable read_json : string -> outcome json.
Variable repr : json -> string.

Lemma add_items_state (browser : string) (found : list json) :
  forall items this, snd (add_items repr browser items found this) = this.
Proof.
  unfold add_items. induction found as [|b found IH]; intros items this; [reflexivity|].
  cbn [fold_each]. unfold bind at 1. unfold bind at 1, lift.
  destruct (make_item repr browser b) as [item|e]; [apply IH | reflexivity].
Qed.

Lemma add_items_length (browser : string) (found : list json) :
  forall items this r,
    fst (add_items repr browser items found this) = Returned r ->
    length r = length items + length found.
Proof.
  unfold add_items. induction found as [|b found IH]; intros items this r.
  - cbn. intros [= <-]. lia.
  - cbn [fold_each]. unfold bind at 1. unfold bind at 1, lift.
    destruct (make_item repr browser b) as [item|e]; [|discriminate].
    unfold ret. intros H. apply IH in H. rewrite length_app in H. simpl in *. lia.
Qed.

Lemma search_roots_grows (query : string) (data : json) :
  forall st, grows query st (snd (search_roots data query st)).
Proof.
  unfold search_roots.
  repeat (apply grows_bind; [intros st; first [apply grows_lift | apply find_rec_grows]|];
          intros ?).
  apply find_rec_grows.
Qed.

Lemma search_source_bounded (query : string) (items : list ExtensionResultItem)
  (source : string * string) (this : BrowserBookmarks) r this' :
  length items = matches_len this /\ matches_len this <= max_matches_len ->
  search_source read_json repr query items source this = (Returned r, this') ->
  length r = matches_len this' /\ matches_len this' <= max_matches_len.
Proof.
  intros [Hlen Hmax]. unfold search_source. cbv zeta. unfold bind at 1, with_matches.
  set (m := bind (lift (read_json (fst source))) (fun data => search_roots data query)).
  assert (Hg : grows query {| self := this; matches := [] |}
                 (snd (m {| self := this; matches := [] |}))).
  { apply grows_bind; [intros st; apply grows_lift | intros; apply search_roots_grows]. }
  destruct (m {| self := this; matches := [] |}) as [[u|e] st1]; [|discriminate].
  destruct Hg as (added & Hm & Hl & _ & _ & Hc & _). cbn [snd self matches app] in *.
  intros Hrun.
  pose proof (add_items_state (snd source) (matches st1) items (self st1)) as Hs.
  pose proof (add_items_length (snd source) (matches st1) items (self st1) r) as Hr.
  rewrite Hrun in Hs, Hr. cbn [fst snd] in Hs, Hr. subst this'.
  specialize (Hr eq_refl). rewrite Hm in Hr. split; [lia | auto].
Qed.

(** C1: whatever the query and the sources, a list returned by one
    invocation of [get_items] has at most [max_matches_len] = 10 items,
    all files and all three root sections counted together. *)
Theorem get_items_at_most_max (query : option string) (this : BrowserBookmarks)
  (items : list ExtensionResultItem) (this' : BrowserBookmarks) :
  get_items read_json repr query this = (Returned items, this') ->
  length items <= 10.
Proof.
  unfold get_items, bind at 1, modify, bind at 1, gets. cbv zeta. intros Hrun.
  change 10 with max_matches_len.
  assert (H : length items = matches_len this' /\ matches_len this' <= max_matches_len).
  { eapply (fold_each_invariant
              (fun acc s => length acc = matches_len s /\ matches_len s <= max_matches_len));
      [| |exact Hrun].
    - intros acc x s acc' s'. apply search_source_bounded.
    - cbn. unfold max_matches_len. lia. }
  lia.
Qed.

(** C8: the entries [find_rec] appends to the match list are never
    folders, on any entry, query and state, whether the call returns or
    raises. *)
Theorem find_rec_appends_no_folder (bookmark_entry : json) (query : string)
  (st : search) :
  exists added,
    matches (snd (find_rec bookmark_entry query st)) = matches st ++ added /\
    Forall (fun m => is_folder m = false) added.
Proof.
  destruct (find_rec_grows query bookmark_entry st) as (added & Hm & _ & _ & _ & _ & Hall).
  exists added. split; [exact Hm|].
  eapply Forall_impl; [|exact Hall].
  intros m Hmatch. unfold entry_matches in Hmatch.
  apply andb_true_iff in Hmatch as [Hleaf _]. now apply negb_true_iff in Hleaf.
Qed.

(** C10: an absent query is searched as the empty query: [get_items]
    gives the same outcome and the same final state for [None] and for
    the empty string. *)
Theorem get_items_None_as_empty (this : BrowserBookmarks) :
  get_items read_json repr None this = get_items read_json repr (Some "") this.
Proof. reflexivity. Qed.

Lemma search_source_raises (query : string) (items : list ExtensionResultItem)
  (path browser : string) (e : exn) (this : BrowserBookmarks) :
  read_json path = Raised e ->
  fst (search_source read_json repr query items (path, browser) this) = Raised e.
Proof.
  intros Hbad. unfold search_source. cbv zeta. cbn [fst snd].
  unfold bind at 1, with_matches, bind at 1, lift. now rewrite Hbad.
Qed.

(** ** [get_items] on bookmark files *)

Lemma leaves_well_formed (node : json) :
  well_formed node = true ->
  Forall (fun l => is_folder l = false /\
                   (exists title, getitem l "name" = Returned (JStr title)) /\
                   (exists u, getitem l "url" = Returned u))
    (leaves node).
Proof.
  induction node as [node IH] using json_tree_ind. intros Hwf.
  destruct node as [| | | | | fields]; try discriminate.
  rewrite well_formed_JObj in Hwf. rewrite leaves_JObj.
  destruct (assoc "type" fields) as [type|] eqn:Htype; [|discriminate].
  destruct (eq_str type "folder") eqn:Hfolder.
  - destruct (assoc "children" fields) as [[| | | | items |]|] eqn:Hchildren;
      try discriminate.
    apply Forall_flat_map, Forall_forall. intros child Hchild.
    apply (IH fields "children" items child); auto using assoc_In.
    rewrite forallb_forall in Hwf. now apply Hwf.
  - constructor; [|constructor].
    unfold is_folder. cbn [getitem]. rewrite Htype, Hfolder.
    destruct (assoc "name" fields) as [[| | | title | |]|]; try discriminate.
    destruct (assoc "url" fields) as [u|]; try discriminate.
    repeat split; eauto.
Qed.

Lemma file_leaves_well_formed (data : json) :
  well_formed_file data = true ->
  Forall (fun l => is_folder l = false /\
                   (exists title, getitem l "name" = Returned (JStr title)) /\
                   (exists u, getitem l "url" = Returned u))
    (file_leaves data).
Proof.
  unfold well_formed_file, file_leaves.
  destruct (getitem data "roots") as [roots|]; [|discriminate].
  destruct (getitem roots "bookmark_bar") as [bar|]; [|discriminate].
  destruct (getitem roots "synced") as [synced|]; [|discriminate].
  destruct (getitem roots "other") as [other|]; [|discriminate].
  intros H. apply andb_true_iff in H as [H Ho]. apply andb_true_iff in H as [Hb Hs].
  repeat (apply Forall_app; split); now apply leaves_well_formed.
Qed.

Lemma search_roots_well_formed (query : string) (data : json) (st : search) :
  well_formed_file data = true ->
  search_roots data query st =
  (Returned tt, take_matches (filter (entry_matches query) (file_leaves data)) st).
Proof.
  unfold well_formed_file, file_leaves, search_roots.
  destruct (getitem data "roots") as [roots|]; [|discriminate].
  destruct (getitem roots "bookmark_bar") as [bar|] eqn:Ebar; [|discriminate].
  destruct (getitem roots "synced") as [synced|] eqn:Esynced; [|discriminate].
  destruct (getitem roots "other") as [other|] eqn:Eother; [|discriminate].
  intros H. apply andb_true_iff in H as [H Ho]. apply andb_true_iff in H as [Hb Hs].
  cbv [bind lift]. rewrite Ebar.
  rewrite (find_rec_well_formed query bar Hb), Esynced.
  rewrite (find_rec_well_formed query synced Hs), Eother.
  rewrite (find_rec_well_formed query other Ho).
  now rewrite !take_matches_app, !filter_app.
Qed.

Lemma add_items_well_formed (browser : string) (found : list json) :
  Forall (fun l => is_folder l = false /\
                   (exists title, getitem l "name" = Returned (JStr title)) /\
                   (exists u, getitem l "url" = Returned u))
    found ->
  forall items this,
    add_items repr browser items found this =
    (Returned (items ++ map (item_of repr browser) found), this).
Proof.
  unfold add_items. induction 1 as [|b found (_ & (title & Hn) & (u & Hu)) _ IH];
    intros items this.
  - cbn. now rewrite app_nil_r.
  - cbn [fold_each map]. unfold bind at 1. unfold bind at 1, lift.
    unfold make_item, item_of, field. rewrite Hn, Hu. unfold ret.
    rewrite IH, <- app_assoc. reflexivity.
Qed.

Lemma In_firstn {A : Type} (n : nat) (l : list A) (x : A) :
  In x (firstn n l) -> In x l.
Proof.
  intros H. rewrite <- (firstn_skipn n l). apply in_or_app. now left.
Qed.

Lemma Forall_filter_firstn {A : Type} (P : A -> Prop) (p : A -> bool) (n : nat)
  (l : list A) :
  Forall P l -> Forall P (firstn n (filter p l)).
Proof.
  rewrite !Forall_forall. intros H x Hx.
  apply H. apply (proj1 (filter_In p x l)). eapply In_firstn; eauto.
Qed.

Lemma search_source_well_formed (query : string) (items : list ExtensionResultItem)
  (source : string * string) (this : BrowserBookmarks) :
  source_well_formed read_json source = true ->
  let taken := firstn (max_matches_len - matches_len this)
                 (source_items read_json repr query source) in
  search_source read_json repr query items source this =
  (Returned (items ++ taken),
   set_matches_len (matches_len this + length taken) this).
Proof.
  unfold source_well_formed, source_items, search_source. cbv zeta.
  destruct (read_json (fst source)) as [data|]; [|discriminate]. intros Hwf.
  unfold bind at 1, with_matches, bind at 1, lift.
  rewrite (search_roots_well_formed query data _ Hwf).
  unfold take_matches. cbn [self matches app].
  rewrite add_items_well_formed
    by (apply Forall_filter_firstn; now apply file_leaves_well_formed).
  now rewrite firstn_map, length_map.
Qed.

Lemma set_matches_len_twice (a b : nat) (this : BrowserBookmarks) :
  set_matches_len a (set_matches_len b this) = set_matches_len a this.
Proof. reflexivity. Qed.

Lemma set_matches_len_same (this : BrowserBookmarks) :
  set_matches_len (matches_len this) this = this.
Proof. now destruct this. Qed.

Lemma search_sources_well_formed (query : string) (sources : list (string * string)) :
  forallb (source_well_formed read_json) sources = true ->
  forall items this,
    let taken := firstn (max_matches_len - matches_len this)
                   (flat_map (source_items read_json repr query) sources) in
    fold_each (search_source read_json repr query) sources items this =
    (Returned (items ++ taken),
     set_matches_len (matches_len this + length taken) this).
Proof.
  induction sources as [|source sources IH]; intros Hwf items this; cbv zeta.
  - cbn [fold_each flat_map]. rewrite firstn_nil, app_nil_r. cbn [length].
    rewrite Nat.add_0_r, set_matches_len_same. reflexivity.
  - cbn [forallb] in Hwf. apply andb_true_iff in Hwf as [Hsource Hrest].
    cbn [fold_each flat_map]. unfold bind.
    rewrite (search_source_well_formed query items source this Hsource). cbv zeta.
    rewrite (IH Hrest). cbv zeta. cbn [matches_len set_matches_len].
    rewrite firstn_app, length_app, <- app_assoc, length_firstn.
    replace (max_matches_len -
             (matches_len this +
              Nat.min (max_matches_len - matches_len this)
                (length (source_items read_json repr query source))))
      with (max_matches_len - matches_len this -
            length (source_items read_json repr query source)) by lia.
    rewrite length_firstn, Nat.add_assoc. reflexivity.
Qed.

(** On sources that all hold bookmark files, [get_items] returns the
    items of the matching leaves in the order of the sources and of each
    file, cut at the ceiling. *)
Lemma get_items_well_formed (query : option string) (this : BrowserBookmarks) :
  forallb (source_well_formed read_json) (bookmarks_paths this) = true ->
  let q := match query with None => "" | Some q => q end in
  let items := firstn max_matches_len
                 (flat_map (source_items read_json repr q) (bookmarks_paths this)) in
  get_items read_json repr query this =
  (Returned items, set_matches_len (length items) this).
Proof.
  intros Hwf. cbv zeta. unfold get_items, bind at 1, modify, bind at 1, gets. cbv zeta.
  cbn [bookmarks_paths set_matches_len].
  rewrite (search_sources_well_formed _ _ Hwf). cbv zeta.
  cbn [matches_len set_matches_len app]. now rewrite Nat.sub_0_r.
Qed.

(** C2, as the code has it: when the file of some source fails to load,
    [get_items] raises and returns no list, whatever the other sources
    hold; when the sources listed before it all hold bookmark files, the
    exception raised is that failure to load. *)
Theorem get_items_raises_on_bad_source (query : option string)
  (this : BrowserBookmarks) (path browser : string) (e : exn) :
  In (path, browser) (bookmarks_paths this) ->
  read_json path = Raised e ->
  (exists e', fst (get_items read_json repr query this) = Raised e') /\
  (forall before after,
      bookmarks_paths this = before ++ (path, browser) :: after ->
      forallb (source_well_formed read_json) before = true ->
      fst (get_items read_json repr query this) = Raised e).
Proof.
  intros Hin Hbad. split.
  - unfold get_items, bind at 1, modify, bind at 1, gets. cbv zeta.
    apply (fold_each_raises _ (path, browser)); [exact Hin|].
    intros acc s. exists e. now apply search_source_raises.
  - intros before after Hpaths Hwf.
    unfold get_items, bind at 1, modify, bind at 1, gets. cbv zeta.
    cbn [bookmarks_paths set_matches_len]. rewrite Hpaths, fold_each_app.
    rewrite (search_sources_well_formed _ _ Hwf). cbv zeta.
    cbn [fold_each]. unfold bind.
    pose proof (search_source_raises
                  (match query with None => "" | Some q => q end)
                  ([] ++ firstn (max_matches_len - matches_len (set_matches_len 0 this))
                           (flat_map
                              (source_items read_json repr
                                 (match query with None => "" | Some q => q end))
                              before))
                  path browser e
                  (set_matches_len
                     (matches_len (set_matches_len 0 this) +
                      length
                        (firstn (max_matches_len - matches_len (set_matches_len 0 this))
                           (flat_map
                              (source_items read_json repr
                                 (match query with None => "" | Some q => q end))
                              before)))
                     (set_matches_len 0 this))
                  Hbad) as Hraise.
    destruct (search_source _ _ _ _ _ _) as [[r|e'] s']; cbn [fst] in *;
      [discriminate | exact Hraise].
Qed.

Lemma title_matches_empty (title : string) :
  lower "" = "" -> title_matches "" title = true.
Proof.
  intros Hempty. unfold title_matches. cbn [PyStr.split forallb].
  now rewrite Hempty, PyStrFacts.contains_empty.
Qed.

Lemma filter_empty_query (found : list json) :
  Forall (fun l => is_folder l = false /\
                   (exists title, getitem l "name" = Returned (JStr title)) /\
                   (exists u, getitem l "url" = Returned u))
    found ->
  lower "" = "" ->
  filter (entry_matches "") found = found.
Proof.
  intros Hfound Hempty.
  induction Hfound as [|l found (Hleaf & (title & Hn) & _) _ IH]; [reflexivity|].
  cbn [filter]. unfold entry_matches at 1.
  now rewrite Hleaf, Hn, (title_matches_empty title Hempty), IH.
Qed.

Lemma source_items_empty_query (source : string * string) :
  lower "" = "" ->
  source_well_formed read_json source = true ->
  source_items read_json repr "" source = source_leaf_items read_json repr source.
Proof.
  unfold source_well_formed, source_items, source_leaf_items. intros Hempty.
  destruct (read_json (fst source)) as [data|]; [|discriminate]. intros Hwf.
  rewrite filter_empty_query; auto using file_leaves_well_formed.
Qed.

(** C5: the empty query splits into one empty sub-query, which every
    name contains; on sources that hold bookmark files, [get_items]
    therefore returns the items of all the leaves, in order, cut only at
    the ceiling.  Of the lower-casing this uses that it leaves the empty
    string empty. *)
Theorem empty_query_returns_every_leaf (this : BrowserBookmarks) :
  lower "" = "" ->
  forallb (source_well_formed read_json) (bookmarks_paths this) = true ->
  PyStr.split PyStr.space "" = [""] /\
  (forall title,
      contains_all_substrings (JStr title) (PyStr.split PyStr.space "") = Returned true) /\
  fst (get_items read_json repr (Some "") this) =
  Returned (firstn max_matches_len
              (flat_map (source_leaf_items read_json repr) (bookmarks_paths this))).
Proof.
  intros Hempty Hwf. split; [reflexivity|]. split.
  - intros title. rewrite contains_all_substrings_JStr.
    f_equal. now apply title_matches_empty.
  - rewrite (get_items_well_formed (Some "") this Hwf). cbn [fst]. do 2 f_equal.
    apply flat_map_ext_in. intros source Hin.
    apply source_items_empty_query; [exact Hempty|].
    rewrite forallb_forall in Hwf. now apply Hwf.
Qed.

(** C7: on sources that hold bookmark files, the items come in the order
    of the traversal: source after source; within a file the leaves of
    bookmark_bar, then of synced, then of other; within a folder the
    leaves of its children in stored order. *)
Theorem get_items_traversal_order (query : string) (this : BrowserBookmarks) :
  forallb (source_well_formed read_json) (bookmarks_paths this) = true ->
  fst (get_items read_json repr (Some query) this) =
  Returned (firstn max_matches_len
              (flat_map (source_items read_json repr query) (bookmarks_paths this))) /\
  (forall data roots bar synced other,
      getitem data "roots" = Returned roots ->
      getitem roots "bookmark_bar" = Returned bar ->
      getitem roots "synced" = Returned synced ->
      getitem roots "other" = Returned other ->
      file_leaves data = leaves bar ++ leaves synced ++ leaves other) /\
  (forall fields items,
      assoc "type" fields = Some (JStr "folder") ->
      assoc "children" fields = Some (JArr items) ->
      leaves (JObj fields) = flat_map leaves items) /\
  (forall fields type,
      assoc "type" fields = Some type ->
      eq_str type "folder" = false ->
      leaves (JObj fields) = [JObj fields]).
Proof.
  intros Hwf. repeat split.
  - now rewrite (get_items_well_formed (Some query) this Hwf).
  - intros data roots bar synced other Hr Hb Hs Ho.
    unfold file_leaves. now rewrite Hr, Hb, Hs, Ho.
  - intros fields items Ht Hc. rewrite leaves_JObj, Ht, Hc. reflexivity.
  - intros fields type Ht Hf. now rewrite leaves_JObj, Ht, Hf.
Qed.

(** ** The matching test on one leaf *)

Lemma title_matches_spec (query title : string) :
  title_matches query title = true <->
  Forall (fun token =>
            exists pre post,
              lower title = (pre ++ lower token ++ post)%string)
    (PyStr.split PyStr.space query).
Proof.
  unfold title_matches. rewrite forallb_forall, Forall_forall.
  split; intros H token Hin; apply PyStrFacts.contains_spec; now apply H.
Qed.

Lemma find_rec_leaf (query : string) (fields : list (string * json)) (type : json)
  (title : string) (st : search) :
  assoc "type" fields = Some type ->
  eq_str type "folder" = false ->
  assoc "name" fields = Some (JStr title) ->
  matches_len (self st) < max_matches_len ->
  find_rec (JObj fields) query st =
  (Returned tt,
   if title_matches query title then count_match (append_match (JObj fields) st)
   else st).
Proof.
  intros Htype Hfolder Hname Hroom.
  rewrite find_rec_unfold. unfold bind at 1, gets.
  destruct (Nat.leb_spec max_matches_len (matches_len (self st))); [lia|].
  cbv [bind lift]. cbn [getitem]. rewrite Htype, Hfolder, Hname.
  rewrite contains_all_substrings_JStr. fold (title_matches query title).
  destruct (title_matches query title); reflexivity.
Qed.

Lemma count_match_changes (entry : json) (st : search) :
  count_match (append_match entry st) <> st.
Proof.
  intros H. apply (f_equal (fun s => length (matches s))) in H.
  cbn in H. rewrite length_app in H. cbn in H. lia.
Qed.

(** C4: below the ceiling, a leaf is appended to the matches exactly
    when every space-separated token of the query occurs, lower-cased,
    as a substring of the lower-cased name of the leaf; otherwise the
    search state stays as it was. *)
Theorem leaf_matches_iff_all_tokens (query : string) (fields : list (string * json))
  (type : json) (title : string) (st : search) :
  assoc "type" fields = Some type ->
  eq_str type "folder" = false ->
  assoc "name" fields = Some (JStr title) ->
  matches_len (self st) < max_matches_len ->
  let all_occur :=
    Forall (fun token =>
              exists pre post,
                lower title = (pre ++ lower token ++ post)%string)
      (PyStr.split PyStr.space query) in
  (all_occur <->
   find_rec (JObj fields) query st =
   (Returned tt, count_match (append_match (JObj fields) st))) /\
  (~ all_occur <-> find_rec (JObj fields) query st = (Returned tt, st)).
Proof.
  intros Htype Hfolder Hname Hroom. cbv zeta.
  rewrite (find_rec_leaf query fields type title st Htype Hfolder Hname Hroom).
  rewrite <- title_matches_spec.
  pose proof (count_match_changes (JObj fields) st) as Hne.
  destruct (title_matches query title); (split; split); intros H;
    try reflexivity; try discriminate; try congruence.
Qed.

(** C6: the matching test gives the same answer on the text and the
    sub-queries as on their lower-cased forms; a bookmark named GitHub
    satisfies both the query github and the query GITHUB.  Of the
    lower-casing this uses that lower-casing twice is lower-casing once,
    and that on ASCII text it moves the letters A to Z to a to z and
    nothing else. *)
Theorem contains_all_substrings_ignores_case :
  (forall s, lower (lower s) = lower s) ->
  (forall s, PyStr.is_ascii s = true -> lower s = PyStr.ascii_lower s) ->
  (forall text substrings,
      contains_all_substrings (JStr text) substrings =
      contains_all_substrings (JStr (lower text)) (map lower substrings)) /\
  contains_all_substrings (JStr "GitHub") (PyStr.split PyStr.space "github")
  = Returned true /\
  contains_all_substrings (JStr "GitHub") (PyStr.split PyStr.space "GITHUB")
  = Returned true.
Proof.
  intros Hidem Hascii. split; [|split].
  - intros text substrings. rewrite !contains_all_substrings_JStr. f_equal.
    symmetry. apply forallb_map_ext. intros sub. now rewrite !Hidem.
  - rewrite contains_all_substrings_JStr.
    change (PyStr.split PyStr.space "github") with ["github"]. cbn [forallb].
    rewrite (Hascii "github" eq_refl), (Hascii "GitHub" eq_refl). reflexivity.
  - rewrite contains_all_substrings_JStr.
    change (PyStr.split PyStr.space "GITHUB") with ["GITHUB"]. cbn [forallb].
    rewrite (Hascii "GITHUB" eq_refl), (Hascii "GitHub" eq_refl). reflexivity.
Qed.

End GetItems.

(** ** Path Locator *)

Lemma split_append_sep (sep : ascii) (l rest : string) :
  PyStr.free_of sep l = true ->
  PyStr.split sep (l ++ String sep rest)%string = l :: PyStr.split sep rest.
Proof.
  induction l as [|c l IH]; cbn [PyStr.free_of append PyStr.split].
  - intros _. now rewrite Ascii.eqb_refl.
  - intros H. apply andb_true_iff in H as [Hc Hl].
    apply negb_true_iff in Hc. rewrite Hc, (IH Hl). reflexivity.
Qed.

Lemma Forall_removelast {A : Type} (P : A -> Prop) (l : list A) :
  Forall P l -> Forall P (removelast l).
Proof.
  induction 1 as [|x l Hx Hl IH]; [constructor|].
  cbn [removelast]. destruct l; [constructor | now constructor].
Qed.

Lemma join_ends_with_last (sep : ascii) (parts : list string) :
  exists pre, PyStr.join sep parts = (pre ++ last parts "")%string.
Proof.
  induction parts as [|p parts [pre IH]]; [now exists ""|].
  destruct parts as [|p' parts].
  - now exists "".
  - exists (p ++ String sep pre)%string.
    change (PyStr.join sep (p :: p' :: parts))
      with (p ++ String sep (PyStr.join sep (p' :: parts)))%string.
    rewrite IH. change (last (p :: p' :: parts) "") with (last (p' :: parts) "").
    rewrite PyStrFacts.append_assoc. reflexivity.
Qed.

(** A path ends with its own name. *)
Lemma endswith_basename (path : string) :
  PyStr.endswith path (basename path) = true.
Proof.
  apply PyStrFacts.endswith_spec. unfold basename.
  destruct (join_ends_with_last PyStr.slash (PyStr.split PyStr.slash path)) as [pre H].
  rewrite PyStrFacts.split_join in H. now exists pre.
Qed.

Section PathLocator.

Variable find_stdout : string -> string.

Lemma split_unlines (ls : list string) :
  Forall (fun l => PyStr.free_of PyStr.newline l = true) ls ->
  PyStr.split PyStr.newline (unlines ls) = ls ++ [""].
Proof.
  induction 1 as [|l ls Hl _ IH]; [reflexivity|].
  cbn [unlines]. rewrite (split_append_sep _ _ _ Hl), IH. reflexivity.
Qed.

Lemma lines_free_of (text : string) :
  Forall (fun l => PyStr.free_of PyStr.newline l = true) (lines text).
Proof.
  unfold lines. pose proof (PyStrFacts.split_free_of PyStr.newline text) as H.
  destruct (String.eqb _ _); [now apply Forall_removelast | exact H].
Qed.

(** What [read().split("\n")] gives for one command: the lines of the
    listing that contain the pattern, and one empty string. *)
Lemma split_popen_find_grep (command : string) :
  PyStr.split PyStr.newline (popen_find_grep find_stdout command) =
  filter (PyStr.contains "Bookmarks") (lines (find_stdout command)) ++ [""].
Proof.
  unfold popen_find_grep, grep. apply split_unlines.
  apply Forall_forall. intros l Hl. apply filter_In in Hl as [Hl _].
  pose proof (lines_free_of (find_stdout command)) as H.
  rewrite Forall_forall in H. now apply H.
Qed.

(** C3, as the code has it: a line of a listing is kept as a bookmark
    source exactly when it ends with the text Bookmarks.  An entry whose
    name is exactly Bookmarks is therefore kept, and so is an entry
    whose name merely ends in Bookmarks. *)
Theorem collect_keeps_paths_ending_in_Bookmarks (dirs : list string)
  (browser one_path : string) :
  (In (one_path, browser) (collect_bookmarks_paths find_stdout dirs browser) <->
   exists command,
     In command dirs /\
     In one_path (lines (find_stdout command)) /\
     PyStr.endswith one_path "Bookmarks" = true) /\
  (basename one_path = "Bookmarks" -> PyStr.endswith one_path "Bookmarks" = true).
Proof.
  split.
  - unfold collect_bookmarks_paths. cbv zeta.
    set (grep_results := flat_map _ dirs).
    assert (Hkept : In (one_path, browser)
                      (map (fun p => (p, browser))
                         (filter (fun p => PyStr.endswith p "Bookmarks") grep_results)) <->
                    exists command,
                      In command dirs /\
                      In one_path (lines (find_stdout command)) /\
                      PyStr.endswith one_path "Bookmarks" = true).
    { rewrite in_map_iff. split.
      - intros (p & Heq & Hin). injection Heq as ->.
        apply filter_In in Hin as [Hin Hends].
        apply in_flat_map in Hin as (command & Hdir & Hline).
        rewrite split_popen_find_grep in Hline.
        apply in_app_or in Hline as [Hline | [<- | []]]; [|discriminate].
        apply filter_In in Hline as [Hline _]. now exists command.
      - intros (command & Hdir & Hline & Hends).
        exists one_path. split; [reflexivity|].
        apply filter_In. split; [|exact Hends].
        apply in_flat_map. exists command. split; [exact Hdir|].
        rewrite split_popen_find_grep. apply in_or_app. left.
        apply filter_In. split; [exact Hline|].
        now apply PyStrFacts.endswith_contains. }
    destruct (length grep_results =? 0)%nat eqn:Hlen; [|exact Hkept].
    apply Nat.eqb_eq, length_zero_iff_nil in Hlen.
    rewrite <- Hkept, Hlen. reflexivity.
  - intros <-. apply endswith_basename.
Qed.

Lemma assoc_dict_set {V : Type} (key id : string) (value : V)
  (items : list (string * V)) :
  assoc key (dict_set id value items) =
  if String.eqb id key then Some value else assoc key items.
Proof.
  induction items as [|[k v] items IH]; cbn [dict_set assoc].
  - reflexivity.
  - destruct (String.eqb_spec k id) as [->|Hne]; cbn [assoc].
    + destruct (String.eqb id key); reflexivity.
    + rewrite IH. destruct (String.eqb_spec k key) as [->|Hk]; [|reflexivity].
      apply String.eqb_neq in Hne. rewrite String.eqb_sym in Hne. now rewrite Hne.
Qed.

(** [find_bookmarks_paths] returns, given the extra search paths, and
    its result depends on nothing else of the extension. *)
Lemma find_bookmarks_paths_returns (extra : string) :
  exists found,
    forall this,
      assoc "additional_browser_paths" (preferences this) = Some extra ->
      find_bookmarks_paths find_stdout this = (Returned found, this).
Proof.
  eexists. intros this H. unfold find_bookmarks_paths. cbv [bind gets lift].
  rewrite H. cbv zeta. unfold ret. reflexivity.
Qed.

(** C9: an update of the reserved key keyword leaves the extension as it
    was.  An update of any other key stores the new value and replaces
    the source list by what [find_bookmarks_paths] computes from the
    updated preferences alone; the preferences hold the extra search
    paths, as the launcher delivers them. *)
Theorem on_event_keyword_ignored :
  (forall new_value this,
      on_event find_stdout (PreferencesUpdateEvent "keyword" new_value) this
      = (Returned tt, this)) /\
  (forall id new_value this extra,
      id <> "keyword" ->
      assoc "additional_browser_paths" (preferences this) = Some extra ->
      exists found,
        (forall ext,
            preferences ext = dict_set id new_value (preferences this) ->
            find_bookmarks_paths find_stdout ext = (Returned found, ext)) /\
        on_event find_stdout (PreferencesUpdateEvent id new_value) this
        = (Returned tt,
           {| preferences := dict_set id new_value (preferences this);
              bookmarks_paths := found;
              matches_len := matches_len this |})).
Proof.
  split; [reflexivity|]. intros id new_value this extra Hid Hextra.
  assert (Hnew : exists extra',
             assoc "additional_browser_paths" (dict_set id new_value (preferences this))
             = Some extra').
  { rewrite assoc_dict_set. destruct (String.eqb id _); eauto. }
  destruct Hnew as [extra' Hnew].
  destruct (find_bookmarks_paths_returns extra') as [found Hfound].
  exists found. split.
  - intros ext Hext. apply Hfound. now rewrite Hext.
  - unfold on_event. apply String.eqb_neq in Hid. rewrite Hid.
    unfold refresh_bookmarks_paths, bind at 1, modify at 1, bind at 1.
    rewrite Hfound by exact Hnew. reflexivity.
Qed.

End PathLocator.

(** * Further properties *)

(** ** The query as a set of tokens *)

Lemma for_each_ext {S A : Type} (f g : A -> M S unit) (xs : list A) :
  (forall x, In x xs -> forall s, f x s = g x s) ->
  forall s, for_each f xs s = for_each g xs s.
Proof.
  induction xs as [|x xs IH]; intros H s; [reflexivity|].
  cbn [for_each]. unfold bind. rewrite (H x (or_introl eq_refl)).
  destruct (g x s) as [[u|e] s']; [|reflexivity].
  apply IH. intros y Hy. apply H. now right.
Qed.

Lemma fold_each_ext {S A B : Type} (f g : B -> A -> M S B) (xs : list A) :
  (forall acc x s, f acc x s = g acc x s) ->
  forall acc s, fold_each f xs acc s = fold_each g xs acc s.
Proof.
  intros H. induction xs as [|x xs IH]; intros acc s; [reflexivity|].
  cbn [fold_each]. unfold bind. rewrite H.
  destruct (g acc x s) as [[acc'|e] s']; [apply IH | reflexivity].
Qed.

Lemma bind_ext {S A B : Type} (m : M S A) (k1 k2 : A -> M S B) (s : S) :
  (forall a s', m s = (Returned a, s') -> k1 a s' = k2 a s') ->
  bind m k1 s = bind m k2 s.
Proof.
  intros H. unfold bind. destruct (m s) as [[a|e] s']; [now apply H | reflexivity].
Qed.

Lemma bind_cong {S A B : Type} (m1 m2 : M S A) (k1 k2 : A -> M S B) (s : S) :
  m1 s = m2 s ->
  (forall a s', k1 a s' = k2 a s') ->
  bind m1 k1 s = bind m2 k2 s.
Proof.
  intros Hm Hk. unfold bind. rewrite Hm.
  destruct (m2 s) as [[a|e] s']; [apply Hk | reflexivity].
Qed.

(** Two queries that the matching test cannot tell apart are searched
    alike. *)
Lemma find_rec_query_ext (q1 q2 : string) :
  (forall text,
      contains_all_substrings text (PyStr.split PyStr.space q1) =
      contains_all_substrings text (PyStr.split PyStr.space q2)) ->
  forall bookmark_entry st,
    find_rec bookmark_entry q1 st = find_rec bookmark_entry q2 st.
Proof.
  intros Hsame. induction bookmark_entry as [entry IH] using json_tree_ind. intros st.
  rewrite !find_rec_unfold.
  apply bind_ext. intros len st1 _.
  destruct (max_matches_len <=? len)%nat; [reflexivity|].
  apply bind_ext. intros type st2 _.
  destruct (eq_str type "folder").
  - apply bind_ext. intros children st3 Hchildren.
    apply bind_ext. intros items st4 Hiter.
    unfold lift in Hchildren, Hiter.
    injection Hchildren as Hchildren _. injection Hiter as Hiter _.
    apply for_each_ext. intros child Hchild st'.
    destruct children as [| | | s | items' | fields']; try discriminate.
    + injection Hiter as <-. apply in_map_iff in Hchild as (c & <- & _).
      now rewrite !find_rec_JStr.
    + injection Hiter as <-.
      destruct entry as [| | | | | fields]; try discriminate.
      apply (IH fields "children" items' child); [reflexivity | | exact Hchild].
      apply assoc_In. simpl in Hchildren.
      destruct (assoc "children" fields); [now injection Hchildren as -> | discriminate].
    + injection Hiter as <-. apply in_map_iff in Hchild as (kv & <- & _).
      now rewrite !find_rec_JStr.
  - cbv zeta. apply bind_ext. intros title st3 _. now rewrite Hsame.
Qed.

Lemma search_roots_query_ext (q1 q2 : string) (data : json) (st : search) :
  (forall text,
      contains_all_substrings text (PyStr.split PyStr.space q1) =
      contains_all_substrings text (PyStr.split PyStr.space q2)) ->
  search_roots data q1 st = search_roots data q2 st.
Proof.
  intros Hsame. unfold search_roots.
  pose proof (find_rec_query_ext q1 q2 Hsame) as Hrec.
  repeat first [ apply Hrec
               | apply bind_cong; [apply Hrec | intros ? ?]
               | apply bind_ext; intros ? ? _ ].
Qed.

Lemma split_app (sep : ascii) (a b : string) :
  PyStr.split sep (a ++ String sep b)%string = PyStr.split sep a ++ PyStr.split sep b.
Proof.
  induction a as [|c a IH]; cbn [append PyStr.split].
  - now rewrite Ascii.eqb_refl.
  - rewrite IH. destruct (Ascii.eqb c sep); [reflexivity|].
    destruct (PyStr.split sep a) as [|tok toks] eqn:E; [|reflexivity].
    now apply PyStrFacts.split_nonempty in E.
Qed.

Lemma contains_all_substrings_ext (text : json) (subs1 subs2 : list string) :
  (subs1 = [] <-> subs2 = []) ->
  (forall title,
      forallb (fun sub => PyStr.contains (lower sub) (lower title)) subs1 =
      forallb (fun sub => PyStr.contains (lower sub) (lower title)) subs2) ->
  contains_all_substrings text subs1 = contains_all_substrings text subs2.
Proof.
  intros Hnil Hall.
  destruct text as [| b | literal | title | items | fields];
    try (rewrite !contains_all_substrings_JStr; now rewrite Hall);
    (destruct subs1, subs2; try reflexivity;
     [discriminate (proj1 Hnil eq_refl) | discriminate (proj2 Hnil eq_refl)]).
Qed.

Lemma split_cons (sep : ascii) (s : string) :
  exists tok toks, PyStr.split sep s = tok :: toks.
Proof.
  destruct (PyStr.split sep s) as [|tok toks] eqn:E;
    [now apply PyStrFacts.split_nonempty in E | eauto].
Qed.

Lemma nonempty_iff {A : Type} (l1 l2 : list A) :
  l1 <> [] -> l2 <> [] -> (l1 = [] <-> l2 = []).
Proof. intros H1 H2. split; intros H; contradiction. Qed.

Section QueryTokens.

Variable read_json : string -> outcome json.
Variable repr : json -> string.

Lemma get_items_query_ext (q1 q2 : string) (this : BrowserBookmarks) :
  (forall text,
      contains_all_substrings text (PyStr.split PyStr.space q1) =
      contains_all_substrings text (PyStr.split PyStr.space q2)) ->
  get_items read_json repr (Some q1) this = get_items read_json repr (Some q2) this.
Proof.
  intros Hsame. unfold get_items.
  apply bind_ext. intros _ s1 _. cbv zeta.
  apply bind_ext. intros paths s2 _.
  apply fold_each_ext. intros acc source s.
  unfold search_source. cbv zeta. unfold bind at 1 3, with_matches.
  replace (bind (lift (read_json (fst source))) (fun data => search_roots data q1)
             {| self := s; matches := [] |})
    with (bind (lift (read_json (fst source))) (fun data => search_roots data q2)
            {| self := s; matches := [] |}); [reflexivity|].
  apply bind_ext. intros data st _. symmetry. now apply search_roots_query_ext.
Qed.

(** X1: the letter case of the query has no effect on what [get_items]
    returns or on the state it leaves.  Of the lower-casing this uses
    that lower-casing twice is lower-casing once, and that it commutes
    with splitting at spaces: a space is left as it is, nothing else
    becomes a space, and no casing rule looks across a space. *)
Theorem get_items_query_case (q : string) (this : BrowserBookmarks) :
  (forall s, lower (lower s) = lower s) ->
  (forall s,
      PyStr.split PyStr.space (lower s) = map lower (PyStr.split PyStr.space s)) ->
  get_items read_json repr (Some q) this =
  get_items read_json repr (Some (lower q)) this.
Proof.
  intros Hidem Hsplit.
  apply get_items_query_ext. intros text.
  apply contains_all_substrings_ext.
  - apply nonempty_iff; apply PyStrFacts.split_nonempty.
  - intros title. rewrite Hsplit. symmetry.
    apply forallb_map_ext. intros sub. now rewrite Hidem.
Qed.

(** X2: a space typed before or after the query has no effect on what
    [get_items] returns: the empty sub-query it adds is contained in
    every name.  Of the lower-casing this uses that it leaves the empty
    string empty. *)
Theorem get_items_query_outer_space (q : string) (this : BrowserBookmarks) :
  lower "" = "" ->
  get_items read_json repr (Some (q ++ " ")%string) this =
  get_items read_json repr (Some q) this /\
  get_items read_json repr (Some (" " ++ q)%string) this =
  get_items read_json repr (Some q) this.
Proof.
  intros Hempty.
  split; apply get_items_query_ext; intros text; apply contains_all_substrings_ext;
    try (apply nonempty_iff; apply PyStrFacts.split_nonempty); intros title.
  - change (q ++ " ")%string with (q ++ String PyStr.space "")%string.
    rewrite split_app, forallb_app. cbn [PyStr.split forallb].
    now rewrite Hempty, PyStrFacts.contains_empty, !andb_true_r.
  - change (" " ++ q)%string with ("" ++ String PyStr.space q)%string.
    rewrite split_app, forallb_app. cbn [PyStr.split forallb].
    now rewrite Hempty, PyStrFacts.contains_empty.
Qed.

(** X3: the order of the words of a query has no effect on what
    [get_items] returns. *)
Theorem get_items_query_word_order (a b : string) (this : BrowserBookmarks) :
  get_items read_json repr (Some (a ++ " " ++ b)%string) this =
  get_items read_json repr (Some (b ++ " " ++ a)%string) this.
Proof.
  apply get_items_query_ext. intros text. apply contains_all_substrings_ext.
  - apply nonempty_iff; apply PyStrFacts.split_nonempty.
  - intros title.
    change (a ++ " " ++ b)%string with (a ++ String PyStr.space b)%string.
    change (b ++ " " ++ a)%string with (b ++ String PyStr.space a)%string.
    rewrite !split_app, !forallb_app. apply andb_comm.
Qed.

(** X4: a name satisfies a query of two parts joined by a space exactly
    when it satisfies each part. *)
Theorem contains_all_substrings_conjunction (title a b : string) :
  contains_all_substrings (JStr title) (PyStr.split PyStr.space (a ++ " " ++ b)%string)
  = Returned true <->
  contains_all_substrings (JStr title) (PyStr.split PyStr.space a) = Returned true /\
  contains_all_substrings (JStr title) (PyStr.split PyStr.space b) = Returned true.
Proof.
  change (a ++ " " ++ b)%string with (a ++ String PyStr.space b)%string.
  rewrite !contains_all_substrings_JStr, split_app, forallb_app.
  destruct (forallb _ (PyStr.split PyStr.space a)),
           (forallb _ (PyStr.split PyStr.space b)); cbn; split;
    try tauto; try discriminate; intros [H1 H2]; discriminate.
Qed.

End QueryTokens.

(** ** Where the matches come from *)

Lemma appends_refl (P : json -> Prop) (st : search) : appends P st st.
Proof. exists []. now rewrite app_nil_r. Qed.

Lemma appends_trans (P : json -> Prop) (st1 st2 st3 : search) :
  appends P st1 st2 -> appends P st2 st3 -> appends P st1 st3.
Proof.
  intros (a1 & M1 & F1) (a2 & M2 & F2). exists (a1 ++ a2). split.
  - now rewrite M2, M1, app_assoc.
  - apply Forall_app. now split.
Qed.

Lemma appends_weaken (P Q : json -> Prop) (st st' : search) :
  (forall b, P b -> Q b) -> appends P st st' -> appends Q st st'.
Proof.
  intros H (added & Hm & Hall). exists added. split; [exact Hm|].
  eapply Forall_impl; eauto.
Qed.

Lemma appends_bind {A B : Type} (P : json -> Prop) (m : M search A)
  (k : A -> M search B) (st : search) :
  appends P st (snd (m st)) ->
  (forall a st', m st = (Returned a, st') -> appends P st' (snd (k a st'))) ->
  appends P st (snd (bind m k st)).
Proof.
  intros Hm Hk. unfold bind. destruct (m st) as [[a|e] st'] eqn:E; cbn [snd] in *;
    [|exact Hm].
  eapply appends_trans; [exact Hm | now apply Hk].
Qed.

Lemma appends_for_each {A : Type} (P : json -> Prop) (body : A -> M search unit)
  (xs : list A) :
  (forall x, In x xs -> forall st, appends P st (snd (body x st))) ->
  forall st, appends P st (snd (for_each body xs st)).
Proof.
  induction xs as [|x xs IH]; intros Hbody st.
  - apply appends_refl.
  - cbn [for_each]. apply appends_bind.
    + apply Hbody. now left.
    + intros _ st' _. apply IH. intros y Hy. apply Hbody. now right.
Qed.

(** Whatever [find_rec] appends is the entry itself or lies below it. *)
Lemma find_rec_appends_descendants (query : string) (bookmark_entry : json) :
  forall st, appends (descends bookmark_entry) st (snd (find_rec bookmark_entry query st)).
Proof.
  induction bookmark_entry as [entry IH] using json_tree_ind. intros st.
  rewrite find_rec_unfold.
  apply appends_bind; [apply appends_refl|]. intros len st1 _.
  destruct (max_matches_len <=? len)%nat; [apply appends_refl|].
  apply appends_bind; [apply appends_refl|]. intros type st2 _.
  destruct (eq_str type "folder").
  - apply appends_bind; [apply appends_refl|]. intros children st3 Hchildren.
    apply appends_bind; [apply appends_refl|]. intros items st4 Hiter.
    unfold lift in Hchildren, Hiter.
    injection Hchildren as Hchildren _. injection Hiter as Hiter _.
    apply appends_for_each. intros child Hchild st'.
    destruct children as [| | | s | items' | fields']; try discriminate.
    + injection Hiter as <-. apply in_map_iff in Hchild as (c & <- & _).
      rewrite find_rec_JStr. unfold find_rec_str, bind, gets.
      destruct (max_matches_len <=? _)%nat; apply appends_refl.
    + injection Hiter as <-.
      destruct entry as [| | | | | fields]; try discriminate.
      apply appends_weaken with (P := descends child).
      * intros b Hb. now apply (descends_child (JObj fields) items' child b).
      * apply (IH fields "children" items' child); [reflexivity | | exact Hchild].
        apply assoc_In. simpl in Hchildren.
        destruct (assoc "children" fields); [now injection Hchildren as -> | discriminate].
    + injection Hiter as <-. apply in_map_iff in Hchild as (kv & <- & _).
      rewrite find_rec_JStr. unfold find_rec_str, bind, gets.
      destruct (max_matches_len <=? _)%nat; apply appends_refl.
  - cbv zeta.
    apply appends_bind; [apply appends_refl|]. intros title st3 _.
    apply appends_bind; [apply appends_refl|]. intros found st4 _.
    destruct found; cbn [negb]; [|apply appends_refl].
    unfold bind, modify. cbn [snd]. exists [entry]. split; [reflexivity|].
    constructor; [apply descends_self | constructor].
Qed.

Lemma search_roots_appends_entries (query : string) (data : json) (st : search) :
  appends (in_file data) st (snd (search_roots data query st)).
Proof.
  unfold search_roots.
  assert (Hcall : forall roots key root st',
             getitem data "roots" = Returned roots ->
             In key ["bookmark_bar"; "synced"; "other"] ->
             getitem roots key = Returned root ->
             appends (in_file data) st' (snd (find_rec root query st'))).
  { intros roots key root st' Hr Hk Hroot.
    apply appends_weaken with (P := descends root);
      [|apply find_rec_appends_descendants].
    intros b Hb. now exists roots, key, root. }
  apply appends_bind; [apply appends_refl|]. intros roots1 s1 H1.
  apply appends_bind; [apply appends_refl|]. intros bar s2 H2.
  unfold lift in H1, H2. injection H1 as H1 _. injection H2 as H2 _.
  apply appends_bind; [apply (Hcall roots1 "bookmark_bar"); simpl; auto|].
  intros _ s3 _.
  apply appends_bind; [apply appends_refl|]. intros roots2 s4 H3.
  apply appends_bind; [apply appends_refl|]. intros synced s5 H4.
  unfold lift in H3, H4. injection H3 as H3 _. injection H4 as H4 _.
  apply appends_bind; [apply (Hcall roots2 "synced"); simpl; auto|].
  intros _ s6 _.
  apply appends_bind; [apply appends_refl|]. intros roots3 s7 H5.
  apply appends_bind; [apply appends_refl|]. intros other s8 H6.
  unfold lift in H5, H6. injection H5 as H5 _. injection H6 as H6 _.
  apply (Hcall roots3 "other"); simpl; auto.
Qed.

(** ** More on [get_items] *)

Lemma fold_each_invariant_In {S A B : Type} (I : B -> Prop) (body : B -> A -> M S B)
  (xs : list A) :
  (forall acc x s acc' s',
      In x xs -> I acc -> body acc x s = (Returned acc', s') -> I acc') ->
  forall acc s acc' s',
    I acc -> fold_each body xs acc s = (Returned acc', s') -> I acc'.
Proof.
  induction xs as [|x xs IH]; intros Hbody acc s acc' s' HI Hrun.
  - cbn in Hrun. now injection Hrun as <- _.
  - cbn [fold_each] in Hrun. unfold bind in Hrun.
    destruct (body acc x s) as [[acc1|e] s1] eqn:Hstep; [|discriminate].
    apply (IH (fun a y t a' t' Hy => Hbody a y t a' t' (or_intror Hy))
              acc1 s1 acc' s'); [|exact Hrun].
    apply (Hbody acc x s acc1 s1); auto. now left.
Qed.

Lemma fold_each_frame {S A B : Type} (R : S -> S -> Prop) (body : B -> A -> M S B) :
  (forall s, R s s) ->
  (forall s1 s2 s3, R s1 s2 -> R s2 s3 -> R s1 s3) ->
  (forall acc x s, R s (snd (body acc x s))) ->
  forall xs acc s, R s (snd (fold_each body xs acc s)).
Proof.
  intros Hrefl Htrans Hbody. induction xs as [|x xs IH]; intros acc s.
  - apply Hrefl.
  - cbn [fold_each]. unfold bind. specialize (Hbody acc x s).
    destruct (body acc x s) as [[acc1|e] s1]; cbn [snd] in *; [|exact Hbody].
    eapply Htrans; [exact Hbody | apply IH].
Qed.

Lemma same_but_counter_refl (this : BrowserBookmarks) : same_but_counter this this.
Proof. exists (matches_len this). now destruct this. Qed.

Lemma same_but_counter_trans (a b c : BrowserBookmarks) :
  same_but_counter a b -> same_but_counter b c -> same_but_counter a c.
Proof. intros [n ->] [m ->]. now exists m. Qed.

Lemma same_but_counter_fields (a b : BrowserBookmarks) :
  preferences b = preferences a ->
  bookmarks_paths b = bookmarks_paths a ->
  same_but_counter a b.
Proof.
  intros Hp Hb. exists (matches_len b). destruct a, b. cbn in *. now subst.
Qed.

Section GetItemsMore.

Variable read_json : string -> outcome json.
Variable repr : json -> string.

Lemma search_source_frame (query : string) (items : list ExtensionResultItem)
  (source : string * string) (this : BrowserBookmarks) :
  same_but_counter this (snd (search_source read_json repr query items source this)).
Proof.
  unfold search_source. cbv zeta. unfold bind at 1, with_matches.
  set (m := bind (lift (read_json (fst source))) (fun data => search_roots data query)).
  assert (Hg : grows query {| self := this; matches := [] |}
                 (snd (m {| self := this; matches := [] |}))).
  { apply grows_bind; [intros st; apply grows_lift | intros; apply search_roots_grows]. }
  destruct (m {| self := this; matches := [] |}) as [[u|e] st1];
    destruct Hg as (added & _ & _ & Hp & Hb & _ & _); cbn [snd self] in *.
  - rewrite add_items_state. now apply same_but_counter_fields.
  - now apply same_but_counter_fields.
Qed.

Lemma get_items_same_but_counter (query : option string) (this : BrowserBookmarks) :
  same_but_counter this (snd (get_items read_json repr query this)).
Proof.
  unfold get_items, bind at 1, modify, bind at 1, gets. cbv zeta.
  apply same_but_counter_trans with (b := set_matches_len 0 this); [now exists 0|].
  apply (fold_each_frame same_but_counter).
  - apply same_but_counter_refl.
  - apply same_but_counter_trans.
  - intros acc x s. apply search_source_frame.
Qed.

Lemma get_items_counts (query : option string) (this : BrowserBookmarks)
  (items : list ExtensionResultItem) (this' : BrowserBookmarks) :
  get_items read_json repr query this = (Returned items, this') ->
  length items = matches_len this' /\ matches_len this' <= max_matches_len.
Proof.
  unfold get_items, bind at 1, modify, bind at 1, gets. cbv zeta. intros Hrun.
  eapply (fold_each_invariant
            (fun acc s => length acc = matches_len s /\ matches_len s <= max_matches_len));
    [| |exact Hrun].
  - intros acc x s acc' s'. apply search_source_bounded.
  - cbn. unfold max_matches_len. lia.
Qed.

(** X5: [get_items] never changes the preferences or the source list,
    whether it returns or raises; when it returns, the counter it leaves
    is the number of items returned. *)
Theorem get_items_final_state (query : option string) (this : BrowserBookmarks) :
  preferences (snd (get_items read_json repr query this)) = preferences this /\
  bookmarks_paths (snd (get_items read_json repr query this)) = bookmarks_paths this /\
  (forall items,
      fst (get_items read_json repr query this) = Returned items ->
      matches_len (snd (get_items read_json repr query this)) = length items).
Proof.
  destruct (get_items_same_but_counter query this) as [n Hn].
  rewrite Hn. repeat split.
  intros items Hitems. rewrite <- Hn.
  destruct (get_items read_json repr query this) as [r this'] eqn:E. cbn [fst snd] in *.
  subst r. now destruct (get_items_counts query this items this' E).
Qed.

(** X6: a query is not affected by the queries before it: run after any
    other query, [get_items] gives the outcome and the state it gives when
    run first. *)
Theorem get_items_after_any_query (query previous : option string)
  (this : BrowserBookmarks) :
  get_items read_json repr query (snd (get_items read_json repr previous this)) =
  get_items read_json repr query this.
Proof.
  destruct (get_items_same_but_counter previous this) as [n ->]. reflexivity.
Qed.

Lemma add_items_returns (browser : string) (found : list json) :
  forall items this r,
    fst (add_items repr browser items found this) = Returned r ->
    exists new,
      r = items ++ new /\
      Forall2 (fun b item => make_item repr browser b = Returned item) found new.
Proof.
  unfold add_items. induction found as [|b found IH]; intros items this r.
  - cbn. intros [= <-]. exists []. now rewrite app_nil_r.
  - cbn [fold_each]. unfold bind at 1. unfold bind at 1, lift.
    destruct (make_item repr browser b) as [item|e] eqn:Hitem; [|discriminate].
    unfold ret. intros H. apply IH in H as (new & -> & Hall).
    exists (item :: new). split; [now rewrite <- app_assoc|]. now constructor.
Qed.

Lemma Forall2_image {A B : Type} (R : A -> B -> Prop) (xs : list A) (ys : list B) :
  Forall2 R xs ys -> Forall (fun y => exists x, In x xs /\ R x y) ys.
Proof.
  induction 1 as [|x y xs ys Hxy _ IH]; constructor.
  - exists x. split; [now left | exact Hxy].
  - eapply Forall_impl; [|exact IH]. intros y' (x' & Hin & HR).
    exists x'. split; [now right | exact HR].
Qed.

Lemma search_source_sound (query : string) (items : list ExtensionResultItem)
  (source : string * string) (this : BrowserBookmarks) r this' :
  search_source read_json repr query items source this = (Returned r, this') ->
  exists new, r = items ++ new /\ Forall (found_in read_json repr query source) new.
Proof.
  unfold search_source. cbv zeta. unfold bind at 1, with_matches.
  unfold bind at 1, lift.
  destruct (read_json (fst source)) as [data|e] eqn:Hread; [|discriminate].
  pose proof (search_roots_grows query data {| self := this; matches := [] |}) as Hg.
  pose proof (search_roots_appends_entries query data {| self := this; matches := [] |})
    as Ha.
  destruct (search_roots data query {| self := this; matches := [] |}) as [[u|e] st1];
    [|discriminate].
  destruct Hg as (added & Hm & _ & _ & _ & _ & Hmatch).
  destruct Ha as (added' & Hm' & Hfile). cbn [snd self matches app] in *.
  assert (added' = added) by congruence. subst added'.
  intros Hrun.
  pose proof (add_items_returns (snd source) (matches st1) items (self st1) r) as Hr.
  rewrite Hrun in Hr. destruct (Hr eq_refl) as (new & -> & Hmade).
  exists new. split; [reflexivity|]. rewrite Hm in Hmade.
  rewrite Forall_forall in Hmatch, Hfile.
  eapply Forall_impl; [|apply (Forall2_image _ _ _ Hmade)].
  intros item (b & Hb & Hitem). exists data, b. repeat split; auto.
  apply Hfile. now rewrite Hm.
Qed.

Lemma make_item_fields (browser : string) (b : json) (item : ExtensionResultItem) :
  make_item repr browser b = Returned item ->
  icon item = assoc browser browser_imgs /\
  on_enter item = OpenUrlAction (description item).
Proof.
  unfold make_item. destruct (getitem b "name"); [|discriminate].
  destruct (getitem b "url"); [|discriminate]. intros [= <-]. now split.
Qed.

(** X7: every item [get_items] returns was made from an entry of the
    file of one of the listed sources, and that entry is a leaf that
    satisfies the query; its icon is the one of the label of that source
    and activating it opens the address shown as its description. *)
Theorem get_items_sound (query : option string) (this : BrowserBookmarks)
  (items : list ExtensionResultItem) (this' : BrowserBookmarks) :
  get_items read_json repr query this = (Returned items, this') ->
  let q := match query with None => "" | Some q => q end in
  Forall (fun item =>
            exists source,
              In source (bookmarks_paths this) /\
              found_in read_json repr q source item /\
              icon item = assoc (snd source) browser_imgs /\
              on_enter item = OpenUrlAction (description item))
    items.
Proof.
  unfold get_items, bind at 1, modify, bind at 1, gets. cbv zeta.
  cbn [bookmarks_paths set_matches_len]. intros Hrun.
  eapply (fold_each_invariant_In _ _ _ _ [] _ items this' _ Hrun). Unshelve.
  - intros acc source s acc' s' Hin Hacc Hstep.
    apply search_source_sound in Hstep as (new & -> & Hnew).
    apply Forall_app. split; [exact Hacc|].
    eapply Forall_impl; [|exact Hnew]. intros item Hitem.
    exists source. split; [exact Hin|]. split; [exact Hitem|].
    destruct Hitem as (data & b & _ & _ & _ & Hmade).
    now apply make_item_fields in Hmade.
  - constructor.
Qed.

(** X8: the list the keyword listener hands to the launcher is the list
    [get_items] returned for the typed argument, and holds at most 10
    items. *)
Theorem keyword_query_renders_at_most_max (argument : option string)
  (this : BrowserBookmarks) (items : list ExtensionResultItem)
  (this' : BrowserBookmarks) :
  keyword_query_on_event read_json repr argument this
  = (Returned (RenderResultListAction items), this') ->
  get_items read_json repr argument this = (Returned items, this') /\
  length items <= 10.
Proof.
  unfold keyword_query_on_event, bind.
  destruct (get_items read_json repr argument this) as [[found|e] s] eqn:E;
    [|discriminate].
  unfold ret. intros [= -> ->]. split; [reflexivity|].
  destruct (get_items_counts argument this items this' E) as [Hlen Hmax].
  change 10 with max_matches_len. lia.
Qed.

End GetItemsMore.

(** ** More on [find_rec] *)

Lemma find_rec_full (query : string) (bookmark_entry : json) (st : search) :
  max_matches_len <= matches_len (self st) ->
  find_rec bookmark_entry query st = (Returned tt, st).
Proof.
  intros Hfull. rewrite find_rec_unfold. unfold bind at 1, gets.
  now destruct (Nat.leb_spec max_matches_len (matches_len (self st))); [|lia].
Qed.

Lemma for_each_full (query : string) (items : list json) (st : search) :
  max_matches_len <= matches_len (self st) ->
  for_each (fun child => find_rec child query) items st = (Returned tt, st).
Proof.
  intros Hfull. induction items as [|c items IH]; [reflexivity|].
  cbn [for_each]. unfold bind. now rewrite find_rec_full.
Qed.

Lemma for_each_app {S A : Type} (body : A -> M S unit) (xs ys : list A) (s : S) :
  for_each body (xs ++ ys) s = (for_each body xs ;; for_each body ys) s.
Proof.
  revert s. induction xs as [|x xs IH]; intros s; [reflexivity|].
  cbn [app for_each]. unfold bind.
  destruct (body x s) as [[u|e] s']; [|reflexivity].
  rewrite IH. reflexivity.
Qed.

(** X9: below the ceiling, [find_rec] raises on an entry that is not a
    dict or lacks the key it reads, and leaves the search state as it
    was: TypeError for a value that is not a dict, KeyError for a missing
    type, children or name, AttributeError for a name that is not text. *)
Theorem find_rec_raises_on_malformed (query : string) (st : search) :
  matches_len (self st) < max_matches_len ->
  (forall entry,
      (forall fields, entry <> JObj fields) ->
      find_rec entry query st = (Raised TypeError, st)) /\
  (forall fields,
      assoc "type" fields = None ->
      find_rec (JObj fields) query st = (Raised (KeyError "type"), st)) /\
  (forall fields,
      assoc "type" fields = Some (JStr "folder") ->
      assoc "children" fields = None ->
      find_rec (JObj fields) query st = (Raised (KeyError "children"), st)) /\
  (forall fields type,
      assoc "type" fields = Some type ->
      eq_str type "folder" = false ->
      assoc "name" fields = None ->
      find_rec (JObj fields) query st = (Raised (KeyError "name"), st)) /\
  (forall fields type title,
      assoc "type" fields = Some type ->
      eq_str type "folder" = false ->
      assoc "name" fields = Some title ->
      (forall text, title <> JStr text) ->
      find_rec (JObj fields) query st = (Raised AttributeError, st)).
Proof.
  intros Hroom.
  assert (Hleb : (max_matches_len <=? matches_len (self st))%nat = false)
    by (apply Nat.leb_gt; exact Hroom).
  repeat split.
  - intros entry Hnot. rewrite find_rec_unfold. cbv [bind gets lift]. rewrite Hleb.
    destruct entry; try reflexivity. now destruct (Hnot fields).
  - intros fields Htype. rewrite find_rec_unfold. cbv [bind gets lift].
    rewrite Hleb. cbn [getitem]. now rewrite Htype.
  - intros fields Htype Hchildren. rewrite find_rec_unfold. cbv [bind gets lift].
    rewrite Hleb. cbn [getitem]. rewrite Htype. cbn [eq_str].
    rewrite String.eqb_refl. now rewrite Hchildren.
  - intros fields type Htype Hfolder Hname. rewrite find_rec_unfold.
    cbv [bind gets lift]. rewrite Hleb. cbn [getitem].
    now rewrite Htype, Hfolder, Hname.
  - intros fields type title Htype Hfolder Hname Hnot. rewrite find_rec_unfold.
    cbv [bind gets lift]. rewrite Hleb. cbn [getitem]. rewrite Htype, Hfolder, Hname.
    destruct (PyStr.split PyStr.space query) as [|tok toks] eqn:E;
      [now apply PyStrFacts.split_nonempty in E|].
    destruct title; try reflexivity. now destruct (Hnot s).
Qed.

(** X10: once the children met so far have filled the list up to the
    ceiling, the remaining children of a folder are not inspected: the
    call returns, whatever those children are. *)
Theorem find_rec_ignores_children_past_ceiling (query : string)
  (fields : list (string * json)) (pre post : list json) (st : search) :
  assoc "type" fields = Some (JStr "folder") ->
  assoc "children" fields = Some (JArr (pre ++ post)) ->
  forallb well_formed pre = true ->
  max_matches_len <=
    matches_len (self st) +
    length (filter (entry_matches query) (flat_map leaves pre)) ->
  find_rec (JObj fields) query st =
  (Returned tt,
   take_matches (filter (entry_matches query) (flat_map leaves pre)) st).
Proof.
  intros Htype Hchildren Hwf Hfill.
  rewrite find_rec_unfold. unfold bind at 1, gets.
  destruct (Nat.leb_spec max_matches_len (matches_len (self st))) as [Hfull|Hroom];
    [now rewrite take_matches_full|].
  cbv [bind lift]. cbn [getitem]. rewrite Htype. cbn [eq_str].
  rewrite String.eqb_refl, Hchildren. cbn [py_iter].
  pose proof (for_each_app (fun child => find_rec child query) pre post st) as Happ.
  unfold bind in Happ. rewrite Happ. clear Happ.
  rewrite filter_flat_map.
  rewrite (for_each_take (fun child => find_rec child query)
             (fun child => filter (entry_matches query) (leaves child)) pre).
  - apply for_each_full. rewrite <- filter_flat_map.
    unfold take_matches. cbn [self matches_len set_matches_len].
    rewrite length_firstn. lia.
  - intros child Hchild. apply find_rec_well_formed.
    rewrite forallb_forall in Hwf. now apply Hwf.
Qed.

(** X11: on any entry and whether it returns or raises, [find_rec] only
    appends to the match list; what it appends are entries at or below
    the one it was called on that satisfy the query; the counter grows
    by their number and does not pass the ceiling; the preferences and
    the source list are left alone. *)
Theorem find_rec_counts_what_it_appends (bookmark_entry : json) (query : string)
  (st : search) :
  exists added,
    matches (snd (find_rec bookmark_entry query st)) = matches st ++ added /\
    matches_len (self (snd (find_rec bookmark_entry query st)))
    = matches_len (self st) + length added /\
    (matches_len (self st) <= max_matches_len ->
     matches_len (self (snd (find_rec bookmark_entry query st))) <= max_matches_len) /\
    preferences (self (snd (find_rec bookmark_entry query st))) = preferences (self st) /\
    bookmarks_paths (self (snd (find_rec bookmark_entry query st)))
    = bookmarks_paths (self st) /\
    Forall (fun m => entry_matches query m = true /\ descends bookmark_entry m) added.
Proof.
  destruct (find_rec_grows query bookmark_entry st)
    as (added & Hm & Hl & Hp & Hb & Hc & Hmatch).
  destruct (find_rec_appends_descendants query bookmark_entry st)
    as (added' & Hm' & Hbelow).
  assert (added' = added) by (rewrite Hm in Hm'; now apply app_inv_head in Hm').
  subst added'. exists added. repeat split; auto.
  rewrite Forall_forall in *. auto.
Qed.

(** ** More on the Path Locator *)

Section PathLocatorMore.

Variable find_stdout : string -> string.

(** The test on the number of results makes no difference to the value
    returned. *)
Lemma collect_bookmarks_paths_eq (dirs : list string) (browser : string) :
  collect_bookmarks_paths find_stdout dirs browser =
  map (fun one_path => (one_path, browser))
    (filter (fun one_path => PyStr.endswith one_path "Bookmarks")
       (flat_map
          (fun command =>
             PyStr.split PyStr.newline (popen_find_grep find_stdout command))
          dirs)).
Proof.
  unfold collect_bookmarks_paths. cbv zeta.
  destruct (length _ =? 0)%nat eqn:Hlen; [|reflexivity].
  apply Nat.eqb_eq, length_zero_iff_nil in Hlen. now rewrite Hlen.
Qed.

Lemma In_collect_bookmarks_paths (dirs : list string) (browser : string)
  (source : string * string) :
  In source (collect_bookmarks_paths find_stdout dirs browser) <->
  snd source = browser /\
  exists command,
    In command dirs /\
    In (fst source) (lines (find_stdout command)) /\
    PyStr.endswith (fst source) "Bookmarks" = true.
Proof.
  rewrite collect_bookmarks_paths_eq, in_map_iff. split.
  - intros (p & <- & Hin). cbn [fst snd]. split; [reflexivity|].
    apply filter_In in Hin as [Hin Hends].
    apply in_flat_map in Hin as (command & Hdir & Hline).
    rewrite split_popen_find_grep in Hline.
    apply in_app_or in Hline as [Hline | [<- | []]]; [|discriminate].
    apply filter_In in Hline as [Hline _]. now exists command.
  - destruct source as [p b]. cbn [fst snd].
    intros (-> & command & Hdir & Hline & Hends).
    exists p. split; [reflexivity|].
    apply filter_In. split; [|exact Hends].
    apply in_flat_map. exists command. split; [exact Hdir|].
    rewrite split_popen_find_grep. apply in_or_app. left.
    apply filter_In. split; [exact Hline|].
    now apply PyStrFacts.endswith_contains.
Qed.

(** X12: directories whose listing is empty, as for a directory that
    does not exist, give no bookmark source. *)
Theorem collect_bookmarks_paths_of_empty_listings (dirs : list string)
  (browser : string) :
  (forall command, In command dirs -> find_stdout command = "") ->
  collect_bookmarks_paths find_stdout dirs browser = [].
Proof.
  intros Hempty.
  destruct (collect_bookmarks_paths find_stdout dirs browser) as [|source rest] eqn:E;
    [reflexivity|].
  assert (Hin : In source (collect_bookmarks_paths find_stdout dirs browser))
    by (rewrite E; now left).
  apply In_collect_bookmarks_paths in Hin as (_ & command & Hdir & Hline & _).
  rewrite (Hempty command Hdir) in Hline. contradiction.
Qed.

(** X13: the sources collected from a list of directories are those of
    its first part followed by those of its second part. *)
Theorem collect_bookmarks_paths_app (dirs1 dirs2 : list string) (browser : string) :
  collect_bookmarks_paths find_stdout (dirs1 ++ dirs2) browser =
  collect_bookmarks_paths find_stdout dirs1 browser ++
  collect_bookmarks_paths find_stdout dirs2 browser.
Proof.
  rewrite !collect_bookmarks_paths_eq.
  now rewrite flat_map_app, filter_app, map_app.
Qed.

(** The value [find_bookmarks_paths] returns for given extra paths. *)
Lemma find_bookmarks_paths_value (this : BrowserBookmarks) (extra : string) :
  assoc "additional_browser_paths" (preferences this) = Some extra ->
  find_bookmarks_paths find_stdout this =
  (Returned
     (collect_bookmarks_paths find_stdout
        ["$HOME/.config/BraveSoftware/Brave-Browser-Beta";
         "$HOME/snap/BraveSoftware/Brave-Browser-Beta/current/.config/BraveSoftware/Brave-Browser-Beta"]
        "BraveSoftware/Brave-Browser-Beta" ++
      if String.eqb extra "" then []
      else collect_bookmarks_paths find_stdout (PyStr.split PyStr.colon extra)
             "custom_path"),
   this).
Proof.
  intros H. unfold find_bookmarks_paths. cbv [bind gets lift]. rewrite H.
  cbv zeta. unfold ret. cbn [support_browsers flat_map]. rewrite app_nil_r.
  destruct (String.eqb extra ""); [now rewrite app_nil_r | reflexivity].
Qed.

Lemma find_bookmarks_paths_state (this : BrowserBookmarks) :
  snd (find_bookmarks_paths find_stdout this) = this.
Proof.
  unfold find_bookmarks_paths. cbv [bind gets lift].
  now destruct (assoc "additional_browser_paths" (preferences this)).
Qed.

(** X14: [find_bookmarks_paths] never changes the extension; it raises
    KeyError exactly when the preferences lack the extra search paths. *)
Theorem find_bookmarks_paths_missing_key (this : BrowserBookmarks) :
  snd (find_bookmarks_paths find_stdout this) = this /\
  (assoc "additional_browser_paths" (preferences this) = None <->
   fst (find_bookmarks_paths find_stdout this)
   = Raised (KeyError "additional_browser_paths")) /\
  (assoc "additional_browser_paths" (preferences this) <> None <->
   exists found, fst (find_bookmarks_paths find_stdout this) = Returned found).
Proof.
  destruct (assoc "additional_browser_paths" (preferences this)) as [extra|] eqn:E.
  - rewrite (find_bookmarks_paths_value this extra E). cbn [fst snd].
    repeat split; try discriminate; eauto.
  - unfold find_bookmarks_paths. cbv [bind gets lift]. rewrite E. cbn [fst snd].
    repeat split; try discriminate; try congruence.
    intros [found H]. discriminate.
Qed.

(** X15: the sources [find_bookmarks_paths] returns, one by one.  A
    source labelled with the browser is a line that ends with Bookmarks
    of the listing of one of its two directories; a source labelled
    custom_path is such a line of the listing of one of the
    colon-separated extra directories; there is no other source, and
    the sources of the browser come first. *)
Theorem find_bookmarks_paths_sources (this : BrowserBookmarks) (extra : string)
  (found : list (string * string)) :
  assoc "additional_browser_paths" (preferences this) = Some extra ->
  fst (find_bookmarks_paths find_stdout this) = Returned found ->
  (forall source,
      In source found <->
      (snd source = "BraveSoftware/Brave-Browser-Beta" /\
       exists command,
         In command
           ["$HOME/.config/BraveSoftware/Brave-Browser-Beta";
            "$HOME/snap/BraveSoftware/Brave-Browser-Beta/current/.config/BraveSoftware/Brave-Browser-Beta"] /\
         In (fst source) (lines (find_stdout command)) /\
         PyStr.endswith (fst source) "Bookmarks" = true) \/
      (snd source = "custom_path" /\
       extra <> "" /\
       exists command,
         In command (PyStr.split PyStr.colon extra) /\
         In (fst source) (lines (find_stdout command)) /\
         PyStr.endswith (fst source) "Bookmarks" = true)) /\
  (exists of_browser of_extra,
      found = of_browser ++ of_extra /\
      Forall (fun source => snd source = "BraveSoftware/Brave-Browser-Beta") of_browser /\
      Forall (fun source => snd source = "custom_path") of_extra).
Proof.
  intros Hextra Hfound.
  rewrite (find_bookmarks_paths_value this extra Hextra) in Hfound.
  cbn [fst] in Hfound. injection Hfound as <-. split.
  - intros source. rewrite in_app_iff, In_collect_bookmarks_paths.
    destruct (String.eqb_spec extra "") as [->|Hne].
    + split; [intros [H|[]]; now left | intros [H|(_ & Hne & _)]; [now left | congruence]].
    + rewrite In_collect_bookmarks_paths. split; (intros [H|H]; [now left | right]).
      * destruct H as (Hl & Hc). auto.
      * destruct H as (Hl & _ & Hc). auto.
  - eexists. eexists. split; [reflexivity|]. split.
    + apply Forall_forall. intros source Hin.
      now apply In_collect_bookmarks_paths in Hin as [Hl _].
    + destruct (String.eqb extra ""); [constructor|].
      apply Forall_forall. intros source Hin.
      now apply In_collect_bookmarks_paths in Hin as [Hl _].
Qed.

(** ** More on the preference listener *)

(** X16: the first delivery of the preferences replaces the stored
    preferences by the delivered ones and the source list by what
    [find_bookmarks_paths] computes from them, whatever was stored
    before; the delivered preferences hold the extra search paths. *)
Theorem on_event_preferences_loaded (prefs : list (string * string))
  (this : BrowserBookmarks) (extra : string) :
  assoc "additional_browser_paths" prefs = Some extra ->
  exists found,
    (forall ext,
        preferences ext = prefs ->
        find_bookmarks_paths find_stdout ext = (Returned found, ext)) /\
    on_event find_stdout (PreferencesEvent prefs) this
    = (Returned tt,
       {| preferences := prefs;
          bookmarks_paths := found;
          matches_len := matches_len this |}).
Proof.
  intros Hextra. eexists. split.
  - intros ext Hext. apply (find_bookmarks_paths_value ext extra). now rewrite Hext.
  - unfold on_event, refresh_bookmarks_paths, bind at 1, modify at 1, bind at 1.
    rewrite (find_bookmarks_paths_value (set_preferences prefs this) extra Hextra).
    reflexivity.
Qed.

(** X17: when the preferences to store lack the extra search paths, the
    listener raises KeyError after it has stored them: the preferences
    are the new ones and the source list is still the old one. *)
Theorem on_event_raises_without_extra_paths :
  (forall prefs this,
      assoc "additional_browser_paths" prefs = None ->
      on_event find_stdout (PreferencesEvent prefs) this
      = (Raised (KeyError "additional_browser_paths"), set_preferences prefs this)) /\
  (forall id new_value this,
      id <> "keyword" ->
      id <> "additional_browser_paths" ->
      assoc "additional_browser_paths" (preferences this) = None ->
      on_event find_stdout (PreferencesUpdateEvent id new_value) this
      = (Raised (KeyError "additional_browser_paths"),
         set_preferences (dict_set id new_value (preferences this)) this)).
Proof.
  split.
  - intros prefs this Hnone.
    unfold on_event, refresh_bookmarks_paths, bind at 1, modify at 1, bind at 1.
    unfold find_bookmarks_paths. cbv [bind gets lift]. cbn [preferences set_preferences].
    now rewrite Hnone.
  - intros id new_value this Hid Hother Hnone.
    unfold on_event. apply String.eqb_neq in Hid. rewrite Hid.
    unfold refresh_bookmarks_paths, bind at 1, modify at 1, bind at 1.
    unfold find_bookmarks_paths. cbv [bind gets lift]. cbn [preferences set_preferences].
    rewrite assoc_dict_set. apply String.eqb_neq in Hother. now rewrite Hother, Hnone.
Qed.

(** X18: the preference listener never changes the counter of matches,
    and an update never removes a stored preference: a key that had a
    value still has one. *)
Theorem on_event_keeps_counter_and_keys (ev : event) (this : BrowserBookmarks) :
  matches_len (snd (on_event find_stdout ev this)) = matches_len this /\
  (forall id new_value key,
      ev = PreferencesUpdateEvent id new_value ->
      assoc key (preferences this) <> None ->
      assoc key (preferences (snd (on_event find_stdout ev this))) <> None).
Proof.
  assert (Hrefresh : forall ext,
             matches_len (snd (refresh_bookmarks_paths find_stdout ext)) = matches_len ext /\
             preferences (snd (refresh_bookmarks_paths find_stdout ext)) = preferences ext).
  { intros ext. unfold refresh_bookmarks_paths, bind, modify.
    pose proof (find_bookmarks_paths_state ext) as Hs.
    destruct (find_bookmarks_paths find_stdout ext) as [[found|e] s]; cbn [snd] in *;
      subst s; now split. }
  split.
  - destruct ev as [id new_value | prefs]; unfold on_event.
    + destruct (String.eqb id "keyword"); [reflexivity|].
      unfold bind at 1, modify at 1. now rewrite (proj1 (Hrefresh _)).
    + unfold bind at 1, modify at 1. now rewrite (proj1 (Hrefresh _)).
  - intros id new_value key -> Hkey. unfold on_event.
    destruct (String.eqb id "keyword"); [exact Hkey|].
    unfold bind at 1, modify at 1. rewrite (proj2 (Hrefresh _)).
    cbn [preferences set_preferences]. rewrite assoc_dict_set.
    destruct (String.eqb id key); [discriminate | exact Hkey].
Qed.

End PathLocatorMore.

(** ** Files that are not bookmark files *)

Section OddFiles.

Variable read_json : string -> outcome json.
Variable repr : json -> string.

Lemma search_roots_raises (data : json) (query : string) (st : search) :
  (exists e, getitem data "roots" = Raised e) \/
  (exists roots key e,
      getitem data "roots" = Returned roots /\
      In key ["bookmark_bar"; "synced"; "other"] /\
      getitem roots key = Raised e) ->
  exists e, fst (search_roots data query st) = Raised e.
Proof.
  unfold search_roots. cbv [bind lift].
  intros [[e Hroots] | (roots & key & e & Hroots & Hkey & Hmissing)]; rewrite Hroots;
    [now exists e|].
  destruct (getitem roots "bookmark_bar") as [bar|e1] eqn:Hbar; [|now exists e1].
  destruct (find_rec bar query st) as [[u|e2] st1]; [|now exists e2].
  destruct (getitem roots "synced") as [synced|e3] eqn:Hsynced; [|now exists e3].
  destruct (find_rec synced query st1) as [[u'|e4] st2]; [|now exists e4].
  destruct (getitem roots "other") as [other|e5] eqn:Hother; [|now exists e5].
  destruct Hkey as [<- | [<- | [<- | []]]]; congruence.
Qed.

(** X19: a source whose file parses but has no roots, or whose roots
    lack one of bookmark_bar, synced and other, makes [get_items] raise,
    wherever the source stands in the list and even when the ceiling was
    reached before it. *)
Theorem get_items_raises_on_missing_section (query : option string)
  (this : BrowserBookmarks) (path browser : string) (data : json) :
  In (path, browser) (bookmarks_paths this) ->
  read_json path = Returned data ->
  (exists e, getitem data "roots" = Raised e) \/
  (exists roots key e,
      getitem data "roots" = Returned roots /\
      In key ["bookmark_bar"; "synced"; "other"] /\
      getitem roots key = Raised e) ->
  exists e, fst (get_items read_json repr query this) = Raised e.
Proof.
  intros Hin Hread Hodd. unfold get_items, bind at 1, modify, bind at 1, gets. cbv zeta.
  apply (fold_each_raises _ (path, browser)); [exact Hin|].
  intros acc s. unfold search_source. cbv zeta. cbn [fst snd].
  unfold bind at 1, with_matches, bind at 1, lift. rewrite Hread.
  destruct (search_roots_raises data
              (match query with None => "" | Some q => q end)
              {| self := s; matches := [] |} Hodd) as [e He].
  destruct (search_roots data _ _) as [[u|e'] st1]; [discriminate|].
  now exists e'.
Qed.

(** X20: on sources that all hold bookmark files, [get_items] returns
    as many items as there are leaves that satisfy the query, or
    [max_matches_len] of them when there are more. *)
Theorem get_items_count_on_bookmark_files (query : string) (this : BrowserBookmarks) :
  forallb (source_well_formed read_json) (bookmarks_paths this) = true ->
  exists items,
    fst (get_items read_json repr (Some query) this) = Returned items /\
    length items =
    Nat.min max_matches_len
      (length (flat_map (source_items read_json repr query) (bookmarks_paths this))).
Proof.
  intros Hwf. rewrite (get_items_well_formed read_json repr (Some query) this Hwf).
  cbn [fst]. eexists. split; [reflexivity|]. apply length_firstn.
Qed.

End OddFiles.

End Lowercase.

(** * The properties on sample inputs *)

(** Two files hold seven matching leaves each; ten items are returned. *)
Lemma get_items_at_most_max_witness :
  exists items this',
    get_items PyStr.ascii_lower sample_read sample_repr (Some "news")
      (sample_extension [("/seven/Bookmarks", "custom_path");
                         ("/seven/Bookmarks", "BraveSoftware/Brave-Browser-Beta")])
    = (Returned items, this') /\
    length items = 10 /\ length items <= 10.
Proof.
  eexists. eexists. split; [vm_compute; reflexivity|].
  split; [reflexivity|].
  eapply (get_items_at_most_max PyStr.ascii_lower sample_read sample_repr (Some "news")
            (sample_extension
               [("/seven/Bookmarks", "custom_path");
                ("/seven/Bookmarks", "BraveSoftware/Brave-Browser-Beta")])).
  vm_compute. reflexivity.
Defined.

(** A file that cannot be opened, listed after a good one: the items of
    the good file are not returned. *)
Lemma bad_source_not_isolated :
  fst (get_items PyStr.ascii_lower sample_read sample_repr (Some "")
         (sample_extension [("/abc/Bookmarks", "custom_path")]))
  = Returned [item_a; item_b; item_c] /\
  fst (get_items PyStr.ascii_lower sample_read sample_repr (Some "")
         (sample_extension [("/abc/Bookmarks", "custom_path");
                            ("/missing/Bookmarks", "custom_path")]))
  = Raised (OSError "/missing/Bookmarks").
Proof. split; vm_compute; reflexivity. Qed.

Lemma get_items_raises_on_bad_source_witness :
  fst (get_items PyStr.ascii_lower sample_read sample_repr (Some "")
         (sample_extension [("/abc/Bookmarks", "custom_path");
                            ("/missing/Bookmarks", "custom_path")]))
  = Raised (OSError "/missing/Bookmarks").
Proof.
  apply (proj2 (get_items_raises_on_bad_source PyStr.ascii_lower sample_read sample_repr
                  (Some "")
                  (sample_extension [("/abc/Bookmarks", "custom_path");
                                     ("/missing/Bookmarks", "custom_path")])
                  "/missing/Bookmarks" "custom_path" (OSError "/missing/Bookmarks")
                  (or_intror (or_introl eq_refl)) eq_refl)
           [("/abc/Bookmarks", "custom_path")] []).
  - reflexivity.
  - reflexivity.
Defined.

(** GitHub satisfies the query GITHUB under the lower-casing of ASCII
    text. *)
Lemma contains_all_substrings_ignores_case_witness :
  contains_all_substrings PyStr.ascii_lower (JStr "GitHub")
    (PyStr.split PyStr.space "GITHUB")
  = Returned true.
Proof.
  apply (proj2 (proj2 (contains_all_substrings_ignores_case PyStr.ascii_lower
                         PyStrFacts.ascii_lower_idem
                         (fun s _ => eq_refl)))).
Defined.

(** An entry named MyBookmarks is kept, although its name is not
    Bookmarks. *)
Lemma MyBookmarks_is_kept :
  In ("/tmp/x/MyBookmarks", "custom_path")
    (collect_bookmarks_paths sample_find ["/tmp/x"] "custom_path") /\
  basename "/tmp/x/MyBookmarks" <> "Bookmarks".
Proof.
  split.
  - vm_compute. left. reflexivity.
  - vm_compute. discriminate.
Qed.

Lemma collect_keeps_paths_ending_in_Bookmarks_witness :
  In ("/tmp/x/Bookmarks", "custom_path")
    (collect_bookmarks_paths sample_find ["/tmp/x"] "custom_path").
Proof.
  apply (proj1 (collect_keeps_paths_ending_in_Bookmarks sample_find ["/tmp/x"]
                  "custom_path" "/tmp/x/Bookmarks")).
  exists "/tmp/x". split; [simpl; left; reflexivity|].
  split; [|apply (proj2 (collect_keeps_paths_ending_in_Bookmarks sample_find ["/tmp/x"]
                           "custom_path" "/tmp/x/Bookmarks")); reflexivity].
  vm_compute. right. right. left. reflexivity.
Defined.

(** My Personal Blog satisfies the query blog personal and not the query
    blog work. *)
Lemma leaf_matches_iff_all_tokens_witness :
  Forall (fun token =>
            exists pre post,
              PyStr.ascii_lower "My Personal Blog" = (pre ++ PyStr.ascii_lower token ++ post)%string)
    (PyStr.split PyStr.space "blog personal") /\
  ~ Forall (fun token =>
              exists pre post,
                PyStr.ascii_lower "My Personal Blog" = (pre ++ PyStr.ascii_lower token ++ post)%string)
      (PyStr.split PyStr.space "blog work").
Proof.
  assert (Hroom : matches_len (self sample_search) < max_matches_len)
    by (unfold max_matches_len; simpl; lia).
  split.
  - apply (proj2 (proj1 (leaf_matches_iff_all_tokens PyStr.ascii_lower "blog personal"
                           [("name", JStr "My Personal Blog"); ("type", JStr "url");
                            ("url", JStr "https://blog.example")]
                           (JStr "url") "My Personal Blog" sample_search
                           eq_refl eq_refl eq_refl Hroom))).
    reflexivity.
  - apply (proj2 (proj2 (leaf_matches_iff_all_tokens PyStr.ascii_lower "blog work"
                           [("name", JStr "My Personal Blog"); ("type", JStr "url");
                            ("url", JStr "https://blog.example")]
                           (JStr "url") "My Personal Blog" sample_search
                           eq_refl eq_refl eq_refl Hroom))).
    reflexivity.
Defined.

(** With the empty query the three leaves of the sample file are
    returned. *)
Lemma empty_query_returns_every_leaf_witness :
  fst (get_items PyStr.ascii_lower sample_read sample_repr (Some "")
         (sample_extension [("/abc/Bookmarks", "custom_path")]))
  = Returned [item_a; item_b; item_c].
Proof.
  rewrite (proj2 (proj2 (empty_query_returns_every_leaf PyStr.ascii_lower
                           sample_read sample_repr
                           (sample_extension [("/abc/Bookmarks", "custom_path")])
                           eq_refl eq_refl))).
  reflexivity.
Defined.

(** bar = [A, B], synced = [], other = [C] and a query that all three
    satisfy: the items are A, B, C in this order. *)
Lemma get_items_traversal_order_witness :
  fst (get_items PyStr.ascii_lower sample_read sample_repr (Some "site")
         (sample_extension [("/abc/Bookmarks", "custom_path")]))
  = Returned [item_a; item_b; item_c].
Proof.
  rewrite (proj1 (get_items_traversal_order PyStr.ascii_lower sample_read sample_repr "site"
                    (sample_extension [("/abc/Bookmarks", "custom_path")])
                    eq_refl)).
  reflexivity.
Defined.

(** Setting the extra search paths rescans; the entries found under
    /tmp/x replace the source list. *)
Lemma on_event_keyword_ignored_witness :
  on_event sample_find
    (PreferencesUpdateEvent "additional_browser_paths" "/tmp/x:/tmp/y")
    (sample_extension [("/old/Bookmarks", "custom_path")])
  = (Returned tt,
     {| preferences := [("keyword", "bm");
                        ("additional_browser_paths", "/tmp/x:/tmp/y")];
        bookmarks_paths := [("/tmp/x/MyBookmarks", "custom_path");
                            ("/tmp/x/Bookmarks", "custom_path")];
        matches_len := 0 |}).
Proof.
  destruct (proj2 (on_event_keyword_ignored sample_find)
              "additional_browser_paths" "/tmp/x:/tmp/y"
              (sample_extension [("/old/Bookmarks", "custom_path")])
              ""
              ltac:(discriminate) eq_refl) as [found [Hfound Hevent]].
  rewrite Hevent.
  specialize (Hfound
                {| preferences := [("keyword", "bm");
                                   ("additional_browser_paths", "/tmp/x:/tmp/y")];
                   bookmarks_paths := [];
                   matches_len := 0 |}
                eq_refl).
  vm_compute in Hfound. injection Hfound as <-. reflexivity.
Defined.

(** ** Further properties *)

Lemma get_items_final_state_witness :
  matches_len
    (snd (get_items PyStr.ascii_lower sample_read sample_repr (Some "site")
            (sample_extension [("/abc/Bookmarks", "custom_path")])))
  = 3.
Proof.
  apply (proj2 (proj2 (get_items_final_state PyStr.ascii_lower sample_read sample_repr (Some "site")
                         (sample_extension [("/abc/Bookmarks", "custom_path")])))
           [item_a; item_b; item_c]).
  reflexivity.
Defined.

Lemma get_items_sound_witness :
  Forall (fun item =>
            exists source,
              In source [("/abc/Bookmarks", "custom_path")] /\
              found_in PyStr.ascii_lower sample_read sample_repr "site b" source item /\
              icon item = assoc (snd source) browser_imgs /\
              on_enter item = OpenUrlAction (description item))
    [item_b].
Proof.
  apply (get_items_sound PyStr.ascii_lower sample_read sample_repr (Some "site b")
           (sample_extension [("/abc/Bookmarks", "custom_path")])
           [item_b]
           {| preferences := [("keyword", "bm"); ("additional_browser_paths", "")];
              bookmarks_paths := [("/abc/Bookmarks", "custom_path")];
              matches_len := 1 |}).
  reflexivity.
Defined.

Lemma keyword_query_renders_at_most_max_witness :
  get_items PyStr.ascii_lower sample_read sample_repr None
    (sample_extension [("/abc/Bookmarks", "custom_path")])
  = (Returned [item_a; item_b; item_c],
     {| preferences := [("keyword", "bm"); ("additional_browser_paths", "")];
        bookmarks_paths := [("/abc/Bookmarks", "custom_path")];
        matches_len := 3 |}) /\
  length [item_a; item_b; item_c] <= 10.
Proof.
  apply (keyword_query_renders_at_most_max PyStr.ascii_lower sample_read sample_repr None
           (sample_extension [("/abc/Bookmarks", "custom_path")])).
  reflexivity.
Defined.

Lemma find_rec_raises_on_malformed_witness :
  find_rec PyStr.ascii_lower JNull "news" sample_search = (Raised TypeError, sample_search) /\
  find_rec PyStr.ascii_lower (JObj [("name", JStr "News")]) "news" sample_search
  = (Raised (KeyError "type"), sample_search).
Proof.
  assert (Hroom : matches_len (self sample_search) < max_matches_len)
    by (unfold max_matches_len; simpl; lia).
  destruct (find_rec_raises_on_malformed PyStr.ascii_lower "news" sample_search Hroom)
    as (Hvalue & Htype & _).
  split.
  - apply Hvalue. intros fields. discriminate.
  - apply Htype. reflexivity.
Defined.

Lemma find_rec_ignores_children_past_ceiling_witness :
  find_rec PyStr.ascii_lower (JObj sample_crowded_fields) "news" sample_search
  = (Returned tt,
     {| self := set_matches_len 10 (sample_extension []); matches := sample_ten |}).
Proof.
  rewrite (find_rec_ignores_children_past_ceiling PyStr.ascii_lower "news" sample_crowded_fields
             sample_ten [JNull; JStr "stray"] sample_search
             eq_refl eq_refl eq_refl).
  - reflexivity.
  - vm_compute. repeat constructor.
Defined.

Lemma collect_bookmarks_paths_of_empty_listings_witness :
  collect_bookmarks_paths sample_find ["/nonexistent"; "/tmp/y"] "custom_path" = [].
Proof.
  apply collect_bookmarks_paths_of_empty_listings.
  intros command [<- | [<- | []]]; reflexivity.
Defined.

Lemma find_bookmarks_paths_sources_witness :
  In ("/tmp/x/Bookmarks", "custom_path")
    [("/tmp/x/MyBookmarks", "custom_path"); ("/tmp/x/Bookmarks", "custom_path")].
Proof.
  apply (proj1 (find_bookmarks_paths_sources sample_find
                  {| preferences := [("keyword", "bm");
                                     ("additional_browser_paths", "/tmp/x:/tmp/y")];
                     bookmarks_paths := [];
                     matches_len := 0 |}
                  "/tmp/x:/tmp/y"
                  [("/tmp/x/MyBookmarks", "custom_path");
                   ("/tmp/x/Bookmarks", "custom_path")]
                  eq_refl eq_refl)).
  right. split; [reflexivity|]. split; [discriminate|].
  exists "/tmp/x". split; [left; reflexivity|].
  split; [|reflexivity]. vm_compute. right. right. left. reflexivity.
Defined.

Lemma on_event_preferences_loaded_witness :
  on_event sample_find
    (PreferencesEvent [("keyword", "bm"); ("additional_browser_paths", "/tmp/x")])
    (sample_extension [("/old/Bookmarks", "custom_path")])
  = (Returned tt,
     {| preferences := [("keyword", "bm"); ("additional_browser_paths", "/tmp/x")];
        bookmarks_paths := [("/tmp/x/MyBookmarks", "custom_path");
                            ("/tmp/x/Bookmarks", "custom_path")];
        matches_len := 0 |}).
Proof.
  destruct (on_event_preferences_loaded sample_find
              [("keyword", "bm"); ("additional_browser_paths", "/tmp/x")]
              (sample_extension [("/old/Bookmarks", "custom_path")])
              "/tmp/x" eq_refl) as [found [Hfound Hevent]].
  rewrite Hevent.
  specialize (Hfound
                {| preferences := [("keyword", "bm");
                                   ("additional_browser_paths", "/tmp/x")];
                   bookmarks_paths := [];
                   matches_len := 0 |}
                eq_refl).
  vm_compute in Hfound. injection Hfound as <-. reflexivity.
Defined.

Lemma on_event_raises_without_extra_paths_witness :
  on_event sample_find (PreferencesEvent [("keyword", "bm")])
    (sample_extension [("/old/Bookmarks", "custom_path")])
  = (Raised (KeyError "additional_browser_paths"),
     {| preferences := [("keyword", "bm")];
        bookmarks_paths := [("/old/Bookmarks", "custom_path")];
        matches_len := 0 |}).
Proof.
  apply (proj1 (on_event_raises_without_extra_paths sample_find)). reflexivity.
Defined.

Lemma on_event_keeps_counter_and_keys_witness :
  assoc "keyword"
    (preferences
       (snd (on_event sample_find
               (PreferencesUpdateEvent "additional_browser_paths" "/tmp/x")
               (sample_extension []))))
  <> None.
Proof.
  apply (proj2 (on_event_keeps_counter_and_keys sample_find
                  (PreferencesUpdateEvent "additional_browser_paths" "/tmp/x")
                  (sample_extension []))
           "additional_browser_paths" "/tmp/x" "keyword" eq_refl).
  discriminate.
Defined.

Lemma get_items_raises_on_missing_section_witness :
  exists e,
    fst (get_items PyStr.ascii_lower sample_read_odd sample_repr (Some "site")
           (sample_extension [("/abc/Bookmarks", "custom_path");
                              ("/odd/Bookmarks", "custom_path")]))
    = Raised e.
Proof.
  apply (get_items_raises_on_missing_section PyStr.ascii_lower sample_read_odd sample_repr (Some "site")
           (sample_extension [("/abc/Bookmarks", "custom_path");
                              ("/odd/Bookmarks", "custom_path")])
           "/odd/Bookmarks" "custom_path" (JObj [("version", JNumber "1")])).
  - simpl. right. left. reflexivity.
  - reflexivity.
  - left. exists (KeyError "roots"). reflexivity.
Defined.

Lemma get_items_count_on_bookmark_files_witness :
  exists items,
    fst (get_items PyStr.ascii_lower sample_read sample_repr (Some "news")
           (sample_extension [("/seven/Bookmarks", "custom_path");
                              ("/seven/Bookmarks", "custom_path")]))
    = Returned items /\
    length items = 10.
Proof.
  destruct (get_items_count_on_bookmark_files PyStr.ascii_lower sample_read sample_repr "news"
              (sample_extension [("/seven/Bookmarks", "custom_path");
                                 ("/seven/Bookmarks", "custom_path")])
              eq_refl) as [items [Hitems Hlen]].
  exists items. split; [exact Hitems|]. rewrite Hlen. reflexivity.
Defined.

Lemma get_items_query_case_witness :
  get_items PyStr.ascii_lower sample_read sample_repr (Some "SITE b")
    (sample_extension [("/abc/Bookmarks", "custom_path")])
  = get_items PyStr.ascii_lower sample_read sample_repr (Some "site b")
      (sample_extension [("/abc/Bookmarks", "custom_path")]).
Proof.
  apply (get_items_query_case PyStr.ascii_lower sample_read sample_repr "SITE b"
           (sample_extension [("/abc/Bookmarks", "custom_path")])
           PyStrFacts.ascii_lower_idem PyStrFacts.split_ascii_lower).
Defined.

Lemma get_items_query_outer_space_witness :
  get_items PyStr.ascii_lower sample_read sample_repr (Some "site ")
    (sample_extension [("/abc/Bookmarks", "custom_path")])
  = get_items PyStr.ascii_lower sample_read sample_repr (Some "site")
      (sample_extension [("/abc/Bookmarks", "custom_path")]).
Proof.
  apply (proj1 (get_items_query_outer_space PyStr.ascii_lower sample_read sample_repr
                  "site"
                  (sample_extension [("/abc/Bookmarks", "custom_path")])
                  eq_refl)).
Defined.
